(** * ai-chat-bot: the session state machine of [chatbot.py]

    A shallow embedding of [ModeConfiguration.py] and of the [ChatBot] class
    of [chatbot.py]: the configuration object, the conversation history, the
    commands that mutate both, and the save/load of a conversation file.

    Conventions of the embedding.
    - A Python value that can sit in the history, in the settings or in a
      loaded file is a [pyval]; a [dict] with string keys is a [gmap].
    - A Python [str] is a [string], one [ascii] per character.
    - A method of [ChatBot] is a computation in the monad [M]: it threads the
      object ([self]), the operator's pending input lines, the printed
      messages, the files and the clock, and it may raise an exception.
    - Every printed f-string is a constructor of [output] carrying the values
      the f-string interpolates.
    - Built-ins whose code is not part of the repository ([int], [float], the
      remote client) are parameters of the section that uses them. *)

From Stdlib Require Import ZArith String Ascii.
From Stdlib Require Import Floats.SpecFloat.
From stdpp Require Import base option list gmap strings.

Set Warnings "-register-all".

Local Open Scope string_scope.

(* ===================================================================== *)
(** * Python values *)
(* ===================================================================== *)

(** The values [json.load] produces, which are also the values the program
    stores: [None], [bool], [int], [float] (an IEEE 754 binary64 number),
    [str], [list] and [dict] with string keys. *)
Inductive pyval : Type :=
| PNone
| PBool (b : bool)
| PInt (z : Z)
| PFloat (f : spec_float)
| PStr (s : string)
| PList (l : list pyval)
| PDict (d : gmap string pyval).

(** Exceptions. All of them derive from [Exception] except [SystemExit] and
    [KeyboardInterrupt], which derive from [BaseException] only. *)
Inductive exn : Type :=
| KeyError (key : string)
| TypeError
| ValueError
| IndexError
| AttributeError
| EOFError
| OSError
| JSONDecodeError
| APIError (msg : string)
| SystemExit (code : Z)
| KeyboardInterrupt.

Definition is_Exception (e : exn) : bool :=
  match e with
  | SystemExit _ | KeyboardInterrupt => false
  | _ => true
  end.

(** The two float constants the program compares with: [0] and [2]. *)
Definition float_zero : spec_float := S754_zero false.
Definition float_two : spec_float := S754_finite false 4503599627370496 (-51).

(** Truth value of an object, as [if x:] and [x or y] test it. *)
Definition truthy (v : pyval) : bool :=
  match v with
  | PNone => false
  | PBool b => b
  | PInt z => negb (z =? 0)%Z
  | PFloat f => negb (SFeqb f float_zero)
  | PStr s => negb (String.eqb s "")
  | PList l => match l with [] => false | _ => true end
  | PDict d => negb (bool_decide (d = ∅))
  end.

(** [x or y] *)
Definition py_or (x y : pyval) : pyval := if truthy x then x else y.

(** [v[key]] for a string key. Only a dict can be indexed by a string. *)
Definition subscript (v : pyval) (key : string) : exn + pyval :=
  match v with
  | PDict d =>
      match d !! key with
      | Some x => inr x
      | None => inl (KeyError key)
      end
  | _ => inl TypeError
  end.

(** [v.get(key, None)]: only a dict has the method. *)
Definition dict_get (v : pyval) (key : string) : exn + pyval :=
  match v with
  | PDict d => inr (default PNone (d !! key))
  | _ => inl AttributeError
  end.

(** The characters of a string, as the one-character strings Python yields
    when it iterates over a [str]. *)
Fixpoint chars (s : string) : list pyval :=
  match s with
  | EmptyString => []
  | String a s' => PStr (String a EmptyString) :: chars s'
  end.

(** The elements [list.extend(v)] appends: iterating a list yields its
    elements, a string its characters, a dict its keys; the other values
    are not iterable. (Python yields the keys of a dict in insertion order,
    which a [gmap] does not record: the keys come in the map's own order.) *)
Definition iterate (v : pyval) : exn + list pyval :=
  match v with
  | PList l => inr l
  | PStr s => inr (chars s)
  | PDict d => inr (PStr <$> (map_to_list d).*1)
  | _ => inl TypeError
  end.

(** [len(v)] *)
Definition py_len (v : pyval) : exn + nat :=
  match v with
  | PList l => inr (length l)
  | PStr s => inr (String.length s)
  | PDict d => inr (size d)
  | _ => inl TypeError
  end.

(** [s[:n]] *)
Fixpoint str_take (n : nat) (s : string) : string :=
  match n, s with
  | S n', String a s' => String a (str_take n' s')
  | _, _ => EmptyString
  end.

(** [str.isspace] on one character (code points below 256). *)
Definition isspace (a : ascii) : bool :=
  let n := nat_of_ascii a in
  (((9 <=? n) && (n <=? 13)) || ((28 <=? n) && (n <=? 32))
   || (n =? 133) || (n =? 160))%nat.

(** [str.lower] on one character (code points below 256). *)
Definition lower_char (a : ascii) : ascii :=
  let n := nat_of_ascii a in
  if (((65 <=? n) && (n <=? 90))
      || ((192 <=? n) && (n <=? 222) && negb (n =? 215)))%nat
  then ascii_of_nat (n + 32) else a.

Fixpoint lower (s : string) : string :=
  match s with
  | EmptyString => EmptyString
  | String a s' => String (lower_char a) (lower s')
  end.

Fixpoint lstrip (s : string) : string :=
  match s with
  | EmptyString => EmptyString
  | String a s' => if isspace a then lstrip s' else s
  end.

(** [rstrip]: a character is kept when it is not a space or when something
    is kept after it. *)
Fixpoint rstrip (s : string) : string :=
  match s with
  | EmptyString => EmptyString
  | String a s' =>
      match rstrip s' with
      | EmptyString => if isspace a then EmptyString else String a EmptyString
      | r => String a r
      end
  end.

Definition strip (s : string) : string := rstrip (lstrip s).

(** The first whitespace-delimited word of [s] and what follows it. *)
Fixpoint break_word (s : string) : string * string :=
  match s with
  | EmptyString => (EmptyString, EmptyString)
  | String a s' =>
      if isspace a then (EmptyString, s)
      else let '(w, r) := break_word s' in (String a w, r)
  end.

(** [s.split(maxsplit=1)]: at most two items, the first word and the rest of
    the line with its leading whitespace removed. *)
Definition split1 (s : string) : list string :=
  match lstrip s with
  | EmptyString => []
  | s1 =>
      let '(w, r) := break_word s1 in
      match lstrip r with
      | EmptyString => [w]
      | r' => [w; r']
      end
  end.

(** [s.startswith(p)] *)
Definition startswith (p s : string) : bool := String.prefix p s.

(* ===================================================================== *)
(** * ModeConfiguration.py *)
(* ===================================================================== *)

(** The four attributes of a configuration. The annotations read [str],
    [int], [float] and [str | None], but neither the constructor nor
    [from_dict] checks them: an attribute holds whatever value it is given. *)
Record ModeConfiguration : Type := {
  model : pyval;
  max_tokens : pyval;
  temperature : pyval;
  system_prompt : pyval
}.

(** [__getitem__] *)
Definition getitem (c : ModeConfiguration) (key : string) : exn + pyval :=
  if String.eqb key "model" then inr (model c)
  else if String.eqb key "max_tokens" then inr (max_tokens c)
  else if String.eqb key "temperature" then inr (temperature c)
  else if String.eqb key "system_prompt" then inr (system_prompt c)
  else inl (KeyError key).

(** [__setitem__] *)
Definition setitem (c : ModeConfiguration) (key : string) (value : pyval)
  : exn + ModeConfiguration :=
  if String.eqb key "model" then
    inr {| model := value; max_tokens := max_tokens c;
           temperature := temperature c; system_prompt := system_prompt c |}
  else if String.eqb key "max_tokens" then
    inr {| model := model c; max_tokens := value;
           temperature := temperature c; system_prompt := system_prompt c |}
  else if String.eqb key "temperature" then
    inr {| model := model c; max_tokens := max_tokens c;
           temperature := value; system_prompt := system_prompt c |}
  else if String.eqb key "system_prompt" then
    inr {| model := model c; max_tokens := max_tokens c;
           temperature := temperature c; system_prompt := value |}
  else inl (KeyError key).

(** [to_dict] *)
Definition to_dict (c : ModeConfiguration) : pyval :=
  PDict (<["model" := model c]>
         (<["max_tokens" := max_tokens c]>
          (<["temperature" := temperature c]>
           (<["system_prompt" := system_prompt c]> ∅)))).

(** [from_dict]: three required keys, read in this order, then the optional
    system prompt. *)
Definition from_dict (data : pyval) : exn + ModeConfiguration :=
  match subscript data "model" with
  | inl e => inl e
  | inr m =>
      match subscript data "max_tokens" with
      | inl e => inl e
      | inr k =>
          match subscript data "temperature" with
          | inl e => inl e
          | inr t =>
              match dict_get data "system_prompt" with
              | inl e => inl e
              | inr p =>
                  inr {| model := m; max_tokens := k;
                         temperature := t; system_prompt := p |}
              end
          end
      end
  end.

(* ===================================================================== *)
(** * The session and its environment *)
(* ===================================================================== *)

(** A [datetime] is represented by its ISO 8601 text. *)
Definition datetime : Type := string.

(** [d.isoformat()] *)
Definition isoformat (d : datetime) : string := d.

(** [d.strftime("%Y%m%d_%H%M%S")], read off the ISO text
    [YYYY-MM-DDTHH:MM:SS...]. *)
Definition strftime_compact (d : datetime) : string :=
  substring 0 4 d ++ substring 5 2 d ++ substring 8 2 d ++ "_"
  ++ substring 11 2 d ++ substring 14 2 d ++ substring 17 2 d.

(** [self.stats] *)
Record Stats : Type := {
  total_messages : Z;
  total_tokens_used : Z;
  session_start : datetime
}.

(** The attributes of a [ChatBot] that the session logic reads and writes. *)
Record ChatBot : Type := {
  available_models : list string;
  settings : ModeConfiguration;
  conversation_history : list pyval;
  stats : Stats
}.

(** What a file holds: text that [json.load] rejects, or a JSON document,
    represented by the value [json.load] returns for it. *)
Inductive file : Type :=
| Garbled
| Json (doc : pyval).

(** What [chat] returns: the text of the assistant, or the f-string that
    renders the exception the generation call raised. *)
Inductive reply : Type :=
| Text (assistant_message : string)
| ErrorText (e : exn).

(** The messages the program prints. The comment gives the method. *)
Inductive output : Type :=
(* save_conversation *)
| Saved (filename : string)
| SaveFailed (e : exn)
(* load_conversation *)
| WarnOverwriteHistory
| AskOverwriteHistory
| LoadCancelled
| WarnOverwriteSettings
| AskOverwriteSettings
| SettingsUpdated (d : pyval)
| SettingsKept
| Loaded (filename : string)
| LoadedCount (n : nat)
| LoadFailed (e : exn)
(* adjust_settings *)
| ModelAlreadyUsed (value : string)
| ModelSwitching
| ModelSwitched (value : string)
| ModelUnsupported (value : string)
| ModelsAvailable (models : list string)
| TokensSet (tokens : Z)
| TokensNotPositive
| TokensInvalid
| TemperatureSet (temp : spec_float)
| TemperatureOutOfRange
| TemperatureInvalid
| PromptTooLong
| PromptUpdated
| PromptEmpty
| UnknownSetting (setting : string)
(* show_settings, show_stats, clear_history *)
| ShowSettings (c : ModeConfiguration)
| ShowStats (s : Stats) (now : datetime) (turns : Z)
| HistoryCleared
(* handle_command *)
| Help
| ModelsHeader
| ModelLine (m : string) (current : bool)
| NeedModelName
| NeedTemperature
| NeedTokens
| NeedPrompt
| NeedFilename
| Goodbye
| UnknownCommand (command : string)
(* run *)
| AskLine
| Thinking
| Answer (response : reply)
| Interrupted
| Failure (e : exn).

(** The object and what it interacts with: the lines the operator will
    type, the messages printed so far (latest last), the files, the
    destinations that cannot be written, and the clock (the [n]-th call of
    [datetime.now()] returns [clock n]). *)
Record World : Type := {
  self : ChatBot;
  stdin : list string;
  stdout : list output;
  fs : gmap string file;
  readonly : gset string;
  clock : nat -> datetime;
  ticks : nat
}.

Definition with_self (w : World) (b : ChatBot) : World :=
  {| self := b; stdin := stdin w; stdout := stdout w; fs := fs w;
     readonly := readonly w; clock := clock w; ticks := ticks w |}.

Definition with_settings (b : ChatBot) (c : ModeConfiguration) : ChatBot :=
  {| available_models := available_models b; settings := c;
     conversation_history := conversation_history b; stats := stats b |}.

Definition with_history (b : ChatBot) (h : list pyval) : ChatBot :=
  {| available_models := available_models b; settings := settings b;
     conversation_history := h; stats := stats b |}.

Definition with_stats (b : ChatBot) (s : Stats) : ChatBot :=
  {| available_models := available_models b; settings := settings b;
     conversation_history := conversation_history b; stats := s |}.

(* ===================================================================== *)
(** * The monad of the methods *)
(* ===================================================================== *)

(** A computation runs in a world and ends in a world, with a value or with
    a raised exception. What it changed before raising stays changed. *)
Definition M (A : Type) : Type := World -> (exn + A) * World.

Definition ret {A : Type} (a : A) : M A := fun w => (inr a, w).

Definition raise {A : Type} (e : exn) : M A := fun w => (inl e, w).

Definition bind {A B : Type} (m : M A) (k : A -> M B) : M B :=
  fun w =>
    match m w with
    | (inl e, w') => (inl e, w')
    | (inr a, w') => k a w'
    end.

Declare Scope py_scope.
Delimit Scope py_scope with py.
Notation "x <- c1 ;; c2" := (bind c1 (fun x => c2))
  (at level 100, c1 at next level, right associativity) : py_scope.
Notation "c1 ;; c2" := (bind c1 (fun _ => c2))
  (at level 100, right associativity) : py_scope.
Local Open Scope py_scope.

(** The result of a pure operation that may raise. *)
Definition lift {A : Type} (r : exn + A) : M A := fun w => (r, w).

(** [try: body / except <classes> as e: handler e] *)
Definition try_catch {A : Type} (caught : exn -> bool)
    (body : M A) (handler : exn -> M A) : M A :=
  fun w =>
    match body w with
    | (inl e, w') => if caught e then handler e w' else (inl e, w')
    | r => r
    end.

(** [try: body / except Exception as e: handler e] *)
Definition try_except {A : Type} (body : M A) (handler : exn -> M A) : M A :=
  try_catch is_Exception body handler.

Definition get_self : M ChatBot := fun w => (inr (self w), w).

Definition put_self (b : ChatBot) : M unit := fun w => (inr tt, with_self w b).

(** [print(...)] *)
Definition print (o : output) : M unit :=
  fun w =>
    (inr tt,
     {| self := self w; stdin := stdin w; stdout := stdout w ++ [o];
        fs := fs w; readonly := readonly w; clock := clock w;
        ticks := ticks w |}).

(** [input(prompt)]: the prompt is printed, then a line is read; at the end
    of the input [EOFError] is raised. *)
Definition input (prompt : output) : M string :=
  print prompt ;;
  fun w =>
    match stdin w with
    | [] => (inl EOFError, w)
    | line :: rest =>
        (inr line,
         {| self := self w; stdin := rest; stdout := stdout w; fs := fs w;
            readonly := readonly w; clock := clock w; ticks := ticks w |})
    end.

(** [datetime.now()] *)
Definition now : M datetime :=
  fun w =>
    (inr (clock w (ticks w)),
     {| self := self w; stdin := stdin w; stdout := stdout w; fs := fs w;
        readonly := readonly w; clock := clock w; ticks := S (ticks w) |}).

(** [with open(filename, 'r') as f: data = json.load(f)] *)
Definition read_json (filename : string) : M pyval :=
  fun w =>
    match fs w !! filename with
    | None => (inl OSError, w)
    | Some Garbled => (inl JSONDecodeError, w)
    | Some (Json doc) => (inr doc, w)
    end.

(** [with open(filename, 'w') as f: json.dump(doc, f, ...)] *)
Definition write_json (filename : string) (doc : pyval) : M unit :=
  fun w =>
    if bool_decide (filename ∈ readonly w) then (inl OSError, w)
    else
      (inr tt,
       {| self := self w; stdin := stdin w; stdout := stdout w;
          fs := <[filename := Json doc]> (fs w); readonly := readonly w;
          clock := clock w; ticks := ticks w |}).

(** [self.settings[key]] *)
Definition settings_getitem (key : string) : M pyval :=
  b <- get_self ;; lift (getitem (settings b) key).

(** [self.settings[key] = value] *)
Definition settings_setitem (key : string) (value : pyval) : M unit :=
  b <- get_self ;;
  c <- lift (setitem (settings b) key value) ;;
  put_self (with_settings b c).

(** [self.settings = c] *)
Definition put_settings (c : ModeConfiguration) : M unit :=
  b <- get_self ;; put_self (with_settings b c).

(** An update of [self.stats]. *)
Definition modify_stats (f : Stats -> Stats) : M unit :=
  b <- get_self ;; put_self (with_stats b (f (stats b))).

(** [self.conversation_history = h] *)
Definition put_history (h : list pyval) : M unit :=
  b <- get_self ;; put_self (with_history b h).

(** [self.conversation_history.append(x)] *)
Definition append_history (x : pyval) : M unit :=
  b <- get_self ;; put_self (with_history b (conversation_history b ++ [x])).

(** [self.conversation_history.extend(v)] *)
Definition extend_history (v : pyval) : M unit :=
  items <- lift (iterate v) ;;
  b <- get_self ;;
  put_self (with_history b (conversation_history b ++ items)).

(** [{"role": role, "content": content}] *)
Definition message (role : string) (content : pyval) : pyval :=
  PDict (<["role" := PStr role]> (<["content" := content]> ∅)).

(** [self.conversation_history[0]["content"] = value]: the list must have
    a first element, and that element must be a dict. *)
Definition set_head_content (value : pyval) : M unit :=
  b <- get_self ;;
  match conversation_history b with
  | [] => raise IndexError
  | PDict d :: rest =>
      put_self (with_history b (PDict (<["content" := value]> d) :: rest))
  | _ :: _ => raise TypeError
  end.

(* ===================================================================== *)
(** * chatbot.py: the methods of ChatBot *)
(* ===================================================================== *)

(** The arguments [chat] passes to [self.client.responses.create]. *)
Record Request : Type := {
  req_model : pyval;
  req_input : list pyval;
  req_temperature : pyval;
  req_max_output_tokens : pyval
}.

(** What [chat] reads of the response: [output_text], and
    [usage.total_tokens] when the response has a usage that is not empty. *)
Record Response : Type := {
  output_text : string;
  usage : option Z
}.

(** The history right after [__init__] and after [clear_history]. *)
Definition initial_history (c : ModeConfiguration) : list pyval :=
  [message "developer" (py_or (system_prompt c) (PStr ""))].

(** [__init__], from line 68 on: the state built once the API key is
    accepted, given the model list [load_models_from_json] returned, the
    configuration [load_model_configuration] returned and the time. *)
Definition ChatBot_init (models : list string) (c : ModeConfiguration)
    (start : datetime) : ChatBot :=
  {| available_models := models;
     settings := c;
     conversation_history := initial_history c;
     stats := {| total_messages := 0; total_tokens_used := 0;
                 session_start := start |} |}.

(** The dict [save_conversation] writes. *)
Definition conversation_data (b : ChatBot) (timestamp : datetime) : pyval :=
  PDict
    (<["timestamp" := PStr (isoformat timestamp)]>
     (<["settings" := to_dict (settings b)]>
      (<["conversation" := PList (drop 1 (conversation_history b))]>
       (<["stats" :=
            PDict
              (<["total_messages" := PInt (total_messages (stats b))]>
               (<["total_tokens_used" :=
                    PInt (total_tokens_used (stats b))]>
                (<["session_start" :=
                     PStr (isoformat (session_start (stats b)))]> ∅)))]>
        ∅)))).

(** [save_conversation] *)
Definition save_conversation (filename : option string) : M unit :=
  filename <-
    match filename with
    | None =>
        timestamp <- now ;;
        ret ("conversation_" ++ strftime_compact timestamp ++ ".json")
    | Some f => ret f
    end ;;
  timestamp <- now ;;
  b <- get_self ;;
  let data := conversation_data b timestamp in
  try_except
    (write_json filename data ;;
     print (Saved filename))
    (fun e => print (SaveFailed e)).

(** [load_conversation], from line 268 to the end of the [try] block. *)
Definition load_conversation_rest (filename : string) (data : pyval)
    (setting : ModeConfiguration) : M unit :=
  conversation <- lift (subscript data "conversation") ;;
  extend_history conversation ;;
  print WarnOverwriteSettings ;;
  line <- input AskOverwriteSettings ;;
  let confirm := lower (strip line) in
  (if String.eqb confirm "yes" then
     put_settings setting ;;
     b <- get_self ;;
     print (SettingsUpdated (to_dict (settings b)))
   else
     print SettingsKept) ;;
  print (Loaded filename) ;;
  conversation' <- lift (subscript data "conversation") ;;
  n <- lift (py_len conversation') ;;
  print (LoadedCount n).

(** [load_conversation] *)
Definition load_conversation (filename : string) : M unit :=
  try_except
    (data <- read_json filename ;;
     settings_data <- lift (subscript data "settings") ;;
     setting <- lift (from_dict settings_data) ;;
     put_history [message "system" (py_or (system_prompt setting) (PStr ""))] ;;
     b <- get_self ;;
     if (1 <? length (conversation_history b))%nat then
       print WarnOverwriteHistory ;;
       line <- input AskOverwriteHistory ;;
       let confirm := lower (strip line) in
       if negb (String.eqb confirm "yes") then
         print LoadCancelled
       else
         load_conversation_rest filename data setting
     else
       load_conversation_rest filename data setting)
    (fun e => print (LoadFailed e)).

(** [value == v] for a string [value]. *)
Definition str_eq (value : string) (v : pyval) : bool :=
  match v with
  | PStr s => String.eqb value s
  | _ => false
  end.

(** [clear_history] *)
Definition clear_history : M unit :=
  prompt <- settings_getitem "system_prompt" ;;
  put_history [message "developer" (py_or prompt (PStr ""))] ;;
  print HistoryCleared.

Section Builtins.

(** [int(value)] and [float(value)] on a string: the number, or [None]
    where Python raises [ValueError]. *)
Variable py_int : string -> option Z.
Variable py_float : string -> option spec_float.

(** [self.client.responses.create(...)]: the response of the remote
    service, or the exception the call raises. *)
Variable client : Request -> exn + Response.

Definition int_of (value : string) : M Z :=
  match py_int value with
  | Some z => ret z
  | None => raise ValueError
  end.

Definition float_of (value : string) : M spec_float :=
  match py_float value with
  | Some f => ret f
  | None => raise ValueError
  end.

Definition is_ValueError (e : exn) : bool :=
  match e with ValueError => true | _ => false end.

(** [adjust_settings] *)
Definition adjust_settings (setting value : string) : M unit :=
  if String.eqb setting "model" then
    b <- get_self ;;
    if bool_decide (value ∈ available_models b) then
      current <- settings_getitem "model" ;;
      (if str_eq value current then print (ModelAlreadyUsed value)
       else print ModelSwitching) ;;
      settings_setitem "model" (PStr value) ;;
      print (ModelSwitched value)
    else
      print (ModelUnsupported value) ;;
      print (ModelsAvailable (available_models b))
  else if String.eqb setting "max_tokens" then
    try_catch is_ValueError
      (tokens <- int_of value ;;
       if (0 <? tokens)%Z then
         settings_setitem "max_tokens" (PInt tokens) ;;
         print (TokensSet tokens)
       else
         print TokensNotPositive)
      (fun _ => print TokensInvalid)
  else if String.eqb setting "temperature" then
    try_catch is_ValueError
      (temp <- float_of value ;;
       if SFleb float_zero temp && SFleb temp float_two then
         settings_setitem "temperature" (PFloat temp) ;;
         print (TemperatureSet temp)
       else
         print TemperatureOutOfRange)
      (fun _ => print TemperatureInvalid)
  else if String.eqb setting "system_prompt" then
    if negb (String.eqb value "") then
      value' <-
        (if (1000 <? String.length value)%nat then
           print PromptTooLong ;;
           ret (str_take 1000 value)
         else ret value) ;;
      settings_setitem "system_prompt" (PStr value') ;;
      set_head_content (PStr value') ;;
      print PromptUpdated
    else
      print PromptEmpty
  else
    print (UnknownSetting setting).

(** [show_settings] *)
Definition show_settings : M unit :=
  b <- get_self ;; print (ShowSettings (settings b)).

(** [show_stats] *)
Definition show_stats : M unit :=
  t <- now ;;
  b <- get_self ;;
  print (ShowStats (stats b) t
           (Z.of_nat (length (conversation_history b)) - 1)).

(** [chat] *)
Definition chat (message_text : string) : M reply :=
  try_except
    (append_history (message "user" (PStr message_text)) ;;
     m <- settings_getitem "model" ;;
     b <- get_self ;;
     t <- settings_getitem "temperature" ;;
     response <-
       lift (client {| req_model := m;
                       req_input := conversation_history b;
                       req_temperature := t;
                       req_max_output_tokens := max_tokens (settings b) |}) ;;
     let assistant_message := output_text response in
     append_history (message "assistant" (PStr assistant_message)) ;;
     modify_stats
       (fun s => {| total_messages := total_messages s + 1;
                    total_tokens_used := total_tokens_used s;
                    session_start := session_start s |}) ;;
     (match usage response with
      | Some total_tokens =>
          modify_stats
            (fun s => {| total_messages := total_messages s;
                         total_tokens_used :=
                           total_tokens_used s + total_tokens;
                         session_start := session_start s |})
      | None => ret tt
      end) ;;
     ret (Text assistant_message))
    (fun e => ret (ErrorText e)).

End Builtins.

Section Dispatcher.

Variable py_int : string -> option Z.
Variable py_float : string -> option spec_float.
Variable client : Request -> exn + Response.

(** The [for] loop of the [/models] command. *)
Fixpoint print_models (current : pyval) (models : list string) : M unit :=
  match models with
  | [] => ret tt
  | m :: rest =>
      print (ModelLine m (str_eq m current)) ;;
      print_models current rest
  end.

(** [handle_command] *)
Definition handle_command (user_input : string) : M bool :=
  let user_input_tokens := split1 (strip user_input) in
  match user_input_tokens with
  | [] => raise IndexError
  | token :: more =>
      let command := lower token in
      let args := match more with a :: _ => strip a | [] => "" end in
      if negb (startswith "/" command) then ret false
      else
        (if String.eqb command "/help" then print Help
         else if String.eqb command "/clear" then clear_history
         else if String.eqb command "/stats" then show_stats
         else if String.eqb command "/settings" then show_settings
         else if String.eqb command "/models" then
           print ModelsHeader ;;
           b <- get_self ;;
           current <- settings_getitem "model" ;;
           print_models current (available_models b)
         else if String.eqb command "/model" then
           if negb (String.eqb args "") then
             adjust_settings py_int py_float "model" args
           else print NeedModelName
         else if String.eqb command "/temp" then
           if negb (String.eqb args "") then
             adjust_settings py_int py_float "temperature" args
           else print NeedTemperature
         else if String.eqb command "/tokens" then
           if negb (String.eqb args "") then
             adjust_settings py_int py_float "max_tokens" args
           else print NeedTokens
         else if String.eqb command "/prompt" then
           if negb (String.eqb args "") then
             adjust_settings py_int py_float "system_prompt" args
           else print NeedPrompt
         else if String.eqb command "/save" then
           save_conversation
             (if negb (String.eqb args "") then Some args else None)
         else if String.eqb command "/load" then
           if negb (String.eqb args "") then load_conversation args
           else print NeedFilename
         else if String.eqb command "/quit" || String.eqb command "/exit"
         then
           print Goodbye ;;
           raise (SystemExit 0)
         else print (UnknownCommand command)) ;;
        ret true
  end.

Definition is_KeyboardInterrupt (e : exn) : bool :=
  match e with KeyboardInterrupt => true | _ => false end.

(** One iteration of the [while True] loop of [run]; the result tells
    whether the loop goes on ([false] after [break]). *)
Definition run_turn : M bool :=
  try_catch (fun e => is_KeyboardInterrupt e || is_Exception e)
    (line <- input AskLine ;;
     let user_input := strip line in
     if String.eqb user_input "" then ret true
     else
       handled <- handle_command user_input ;;
       if handled then ret true
       else
         print Thinking ;;
         response <- chat client user_input ;;
         print (Answer response) ;;
         ret true)
    (fun e =>
       if is_KeyboardInterrupt e then print Interrupted ;; ret false
       else print (Failure e) ;; ret true).

(** [run]: at most [fuel] iterations of the loop. *)
Fixpoint run (fuel : nat) : M unit :=
  match fuel with
  | O => ret tt
  | S fuel' =>
      continue <- run_turn ;;
      if continue then run fuel' else ret tt
  end.

End Dispatcher.

(* ===================================================================== *)
(** * Predicates on states *)
(* ===================================================================== *)

(** [0 <= temp <= 2] *)
Definition temp_in_range (temp : spec_float) : bool :=
  SFleb float_zero temp && SFleb temp float_two.

(** The four validation rules of [load_model_configuration] and
    [adjust_settings], taken together: the model is in the list, the token
    limit is a positive integer, the temperature is a number between 0 and
    2, the prompt is absent or has at most 1000 characters. *)
Definition valid_config (models : list string) (c : ModeConfiguration)
  : bool :=
  match model c with
  | PStr m => bool_decide (m ∈ models)
  | _ => false
  end
  && match max_tokens c with
     | PInt n => (0 <? n)%Z
     | _ => false
     end
  && match temperature c with
     | PFloat t => temp_in_range t
     | PInt n => (0 <=? n)%Z && (n <=? 2)%Z
     | _ => false
     end
  && match system_prompt c with
     | PNone => true
     | PStr p => (String.length p <=? 1000)%nat
     | _ => false
     end.

(** The configuration of the object is valid for its own model list. *)
Definition config_ok (b : ChatBot) : Prop :=
  valid_config (available_models b) (settings b) = true.

(** The model list and the start of the session are fixed, and the number
    of messages is at least [n]. *)
Definition steady (models : list string) (start : datetime) (n : Z)
    (b : ChatBot) : Prop :=
  available_models b = models /\ session_start (stats b) = start
  /\ (n <= total_messages (stats b))%Z.

(** [history[0]["role"]], when the history has a first element that is a
    dict with that key. *)
Definition head_role (b : ChatBot) : option pyval :=
  match conversation_history b with
  | PDict d :: _ => d !! "role"
  | _ => None
  end.

(** [history[0]["content"]], likewise. *)
Definition head_content (b : ChatBot) : option pyval :=
  match conversation_history b with
  | PDict d :: _ => d !! "content"
  | _ => None
  end.

(** The first element of the history is a dict written by the program:
    its role is the one [__init__] and [clear_history] write, or the one
    [load_conversation] writes. *)
Definition head_ok (b : ChatBot) : Prop :=
  head_role b = Some (PStr "developer") \/ head_role b = Some (PStr "system").

(** The states of a session: the one [__init__] builds, and those reached
    from it by iterations of the loop of [run], whatever the operator
    types, the files hold, the clock shows and the remote service answers. *)
Inductive reachable (py_int : string -> option Z)
    (py_float : string -> option spec_float) : ChatBot -> Prop :=
| reachable_init models c start :
    reachable py_int py_float (ChatBot_init models c start)
| reachable_turn client w :
    reachable py_int py_float (self w) ->
    reachable py_int py_float
      (self (run_turn py_int py_float client w).2).

(** A session saves its conversation to [filename]; afterwards a session
    whose object is [b] loads that file, with [lines] for the operator to
    type. The files are those the save left. *)
Definition save_then_load (saver : World) (filename : string) (b : ChatBot)
    (lines : list string) : (exn + unit) * World :=
  let saved := (save_conversation (Some filename) saver).2 in
  load_conversation filename
    {| self := b; stdin := lines; stdout := stdout saved; fs := fs saved;
       readonly := readonly saved; clock := clock saved;
       ticks := ticks saved |}.

(** The request [chat] sends for the text [message_text] from the state
    [b]: the history already holds the new user message. *)
Definition chat_request (b : ChatBot) (message_text : string) : Request :=
  {| req_model := model (settings b);
     req_input :=
       conversation_history b ++ [message "user" (PStr message_text)];
     req_temperature := temperature (settings b);
     req_max_output_tokens := max_tokens (settings b) |}.

(** What the computation [m] printed when run in [w]. *)
Definition printed {A : Type} (m : M A) (w : World) : list output :=
  drop (length (stdout w)) (stdout (m w).2).

(** ** Relations between the world before and after a computation *)

(** The computation [m] relates by [R] the world it starts in and the world
    it ends in, whether it returns or raises. *)
Definition keeps {A : Type} (R : relation World) (m : M A) : Prop :=
  forall w, R w (m w).2.

(** The property [P] of the object, once true, is still true afterwards. *)
Definition pres_rel (P : ChatBot -> Prop) : relation World :=
  fun w w' => P (self w) -> P (self w').

Definition preserves {A : Type} (P : ChatBot -> Prop) (m : M A) : Prop :=
  keeps (pres_rel P) m.

(** Messages are only added, and every added message satisfies [ok]. *)
Definition emit_rel (ok : output -> bool) : relation World :=
  fun w w' =>
    exists out, stdout w' = (stdout w ++ out)%list
                /\ Forall (fun o => ok o = true) out.

Definition emits {A : Type} (ok : output -> bool) (m : M A) : Prop :=
  keeps (emit_rel ok) m.

(** The three messages of the dialogue that guards the overwriting of the
    history in [load_conversation]. *)
Definition is_overwrite_dialogue (o : output) : bool :=
  match o with
  | WarnOverwriteHistory | AskOverwriteHistory | LoadCancelled => true
  | _ => false
  end.

(** The outcome of the first two statements of the [try] block of
    [load_conversation]: the document read from the file and the
    configuration parsed from its settings, or the exception raised. *)
Definition read_settings (w : World) (filename : string)
  : exn + (pyval * ModeConfiguration) :=
  match fs w !! filename with
  | None => inl OSError
  | Some Garbled => inl JSONDecodeError
  | Some (Json data) =>
      match subscript data "settings" with
      | inl e => inl e
      | inr settings_data =>
          match from_dict settings_data with
          | inl e => inl e
          | inr setting => inr (data, setting)
          end
      end
  end.

(* ===================================================================== *)
(** * Sample data *)
(* ===================================================================== *)

(** The model list [load_models_from_json] falls back to. *)
Definition default_models : list string := ["gpt-4"; "gpt-4.1"; "gpt-4o"].

(** The binary64 numbers nearest to 0.7, and equal to 3 and to 9.5. *)
Definition float_0_7 : spec_float := S754_finite false 6305039478318694 (-53).
Definition float_three : spec_float :=
  S754_finite false 6755399441055744 (-51).
Definition float_9_5 : spec_float := S754_finite false 5348024557502464 (-49).

(** The configuration [load_model_configuration] builds from its defaults,
    with a short system prompt. *)
Definition default_config : ModeConfiguration :=
  {| model := PStr "gpt-4o"; max_tokens := PInt 1024;
     temperature := PFloat float_0_7;
     system_prompt := PStr "Be brief." |}.

Definition fresh_bot : ChatBot :=
  ChatBot_init default_models default_config "2025-01-02T03:04:05".

(** A session after one exchange that used 7 tokens. *)
Definition busy_bot : ChatBot :=
  {| available_models := default_models;
     settings := default_config;
     conversation_history :=
       [message "developer" (PStr "Be brief.");
        message "user" (PStr "hi");
        message "assistant" (PStr "hello")];
     stats := {| total_messages := 1; total_tokens_used := 7;
                 session_start := "2025-01-01T10:00:00" |} |}.

(** The same session after a second exchange. *)
Definition busier_bot : ChatBot :=
  with_stats busy_bot
    {| total_messages := 2; total_tokens_used := 19;
       session_start := "2025-01-01T10:00:00" |}.

(** A world with nothing printed yet, every destination writable and the
    clock stopped. *)
Definition sample_world (b : ChatBot) (lines : list string)
    (files : gmap string file) : World :=
  {| self := b; stdin := lines; stdout := []; fs := files; readonly := ∅;
     clock := fun _ => "2025-01-02T03:04:06"; ticks := 0 |}.

(** A decimal reader standing for [int] on the samples. *)
Fixpoint digits (s : string) (acc : Z) : option Z :=
  match s with
  | EmptyString => Some acc
  | String a s' =>
      let n := Z.of_nat (nat_of_ascii a) in
      if ((48 <=? n) && (n <=? 57))%Z then digits s' (10 * acc + (n - 48))%Z
      else None
  end.

Definition sample_int (s : string) : option Z :=
  match s with
  | EmptyString => None
  | String "-" (String a s') => Z.opp <$> digits (String a s') 0
  | String "-" EmptyString => None
  | _ => digits s 0
  end.

(** A table standing for [float] on the samples. *)
Definition sample_float (s : string) : option spec_float :=
  if String.eqb s "0" then Some float_zero
  else if String.eqb s "0.7" then Some float_0_7
  else if String.eqb s "2" then Some float_two
  else if String.eqb s "3" then Some float_three
  else if String.eqb s "nan" then Some S754_nan
  else None.

(** A remote service that is down, and one that answers. *)
Definition client_down (_ : Request) : exn + Response :=
  inl (APIError "connection refused").

Definition client_up (_ : Request) : exn + Response :=
  inr {| output_text := "hello"; usage := Some 7%Z |}.

(** A string of [n] copies of a character. *)
Fixpoint str_repeat (a : ascii) (n : nat) : string :=
  match n with
  | O => EmptyString
  | S n' => String a (str_repeat a n')
  end.

(** A saved conversation: complete settings, two messages. *)
Definition sample_settings_data : pyval :=
  PDict (<["model" := PStr "gpt-4"]>
         (<["max_tokens" := PInt 256]>
          (<["temperature" := PFloat float_two]>
           (<["system_prompt" := PStr "Answer in French."]> ∅)))).

Definition sample_document : pyval :=
  PDict (<["settings" := sample_settings_data]>
         (<["conversation" :=
              PList [message "user" (PStr "bonjour");
                     message "assistant" (PStr "salut")]]> ∅)).

(** A document with complete settings and no ["conversation"] key. *)
Definition document_without_conversation : pyval :=
  PDict (<["settings" := sample_settings_data]> ∅).

(** A document whose settings break every validation rule. *)
Definition document_with_invalid_settings : pyval :=
  PDict (<["settings" :=
             PDict (<["model" := PStr "no-such-model"]>
                    (<["max_tokens" := PInt (-5)]>
                     (<["temperature" := PFloat float_9_5]>
                      (<["system_prompt" :=
                           PStr (str_repeat "x" 1001)]> ∅))))]>
         (<["conversation" := PList []]> ∅)).

(* ===================================================================== *)
(** * utils.py and the configuration read at startup *)
(* ===================================================================== *)

(** The messages printed before the session exists. *)
Inductive notice : Type :=
(* get_environment_variable *)
| EnvNotSet (var_name : string)
(* load_models_from_json *)
| ModelsLoaded (n : nat)
| ModelsBadFormat
| ModelsNotFound
| ModelsFailed (e : exn)
(* load_model_configuration *)
| ModelNotAvailable (model_name : option string)
| ModelsAre (models : list string)
| MaxTokensRejected
| TemperatureRejected
| PromptNotSet
| PromptCut
| PromptSetTo (prompt : string).

(** A startup computation: a value or a raised exception, and the messages
    printed on the way. *)
Definition W (A : Type) : Type := ((exn + A) * list notice)%type.

Definition wret {A : Type} (a : A) : W A := (inr a, []).

Definition wraise {A : Type} (e : exn) : W A := (inl e, []).

Definition notify (n : notice) : W unit := (inr tt, [n]).

Definition wbind {A B : Type} (m : W A) (k : A -> W B) : W B :=
  match m with
  | (inl e, out) => (inl e, out)
  | (inr a, out) => let '(r, out') := k a in (r, (out ++ out')%list)
  end.

(** [try: body / except Exception as e: handler e] *)
Definition wtry {A : Type} (body : W A) (handler : exn -> W A) : W A :=
  match body with
  | (inl e, out) =>
      if is_Exception e
      then let '(r, out') := handler e in (r, (out ++ out')%list)
      else (inl e, out)
  | r => r
  end.

Declare Scope startup_scope.
Notation "x <- c1 ;; c2" := (wbind c1 (fun x => c2))
  (at level 100, c1 at next level, right associativity) : startup_scope.
Notation "c1 ;; c2" := (wbind c1 (fun _ => c2))
  (at level 100, right associativity) : startup_scope.
Local Open Scope startup_scope.

(** [get_environment_variable]: [env] is [os.environ]. *)
Definition get_environment_variable (env : gmap string string)
    (var_name : string) (default : option string) (show_warning : bool)
  : W (option string) :=
  let value := env !! var_name in
  match value with
  | None =>
      match default with
      | Some d => wret (Some d)
      | None =>
          (if show_warning then notify (EnvNotSet var_name) else wret tt) ;;
          wret value
      end
  | Some _ => wret value
  end.

(** The list [load_models_from_json] returns when it cannot load one. *)
Definition fallback_models : list pyval :=
  [PStr "gpt-4"; PStr "gpt-4.1"; PStr "gpt-4o"].

(** [load_models_from_json]: the [try] block yields the list it returns
    from inside, or nothing when control reaches the end of the function. *)
Definition load_models_from_json (files : gmap string file)
  : W (list pyval) :=
  returned <-
    wtry
      (let models_file := "models.json" in
       match files !! models_file with
       | Some content =>
           models <-
             match content with
             | Garbled => wraise JSONDecodeError
             | Json doc => wret doc
             end ;;
           match models with
           | PList l =>
               notify (ModelsLoaded (length l)) ;;
               wret (Some l)
           | _ =>
               notify ModelsBadFormat ;;
               wret None
           end
       | None =>
           notify ModelsNotFound ;;
           wret None
       end)
      (fun e => notify (ModelsFailed e) ;; wret None) ;;
  match returned with
  | Some l => wret l
  | None => wret fallback_models
  end.

(** [str.isdigit] on one character (code points below 256): the ten
    digits and the superscripts 1, 2 and 3. *)
Definition isdigit_char (a : ascii) : bool :=
  let n := nat_of_ascii a in
  (((48 <=? n) && (n <=? 57)) || (n =? 178) || (n =? 179) || (n =? 185))%nat.

(** [s.isdigit()]: no character that is not a digit, and not empty. *)
Definition isdigit (s : string) : bool :=
  negb (String.eqb s "") && forallb isdigit_char (list_ascii_of_string s).

(** [s.replace('.', '', 1)] *)
Fixpoint remove_first_dot (s : string) : string :=
  match s with
  | EmptyString => EmptyString
  | String a s' =>
      if Ascii.eqb a "."%char then s' else String a (remove_first_dot s')
  end.

(** [', '.join(models)]: every item must be a string. *)
Fixpoint join_names (models : list pyval) : exn + list string :=
  match models with
  | [] => inr []
  | PStr s :: rest =>
      match join_names rest with
      | inr names => inr (s :: names)
      | inl e => inl e
      end
  | _ :: _ => inl TypeError
  end.

(** The truth value of an optional string: [None] and [""] are false. *)
Definition nonempty (s : option string) : bool :=
  match s with
  | Some (String _ _) => true
  | _ => false
  end.

Section Startup.

Variable py_int : string -> option Z.
Variable py_float : string -> option spec_float.

(** The default system prompt of line 143, a text of 49 characters. *)
Variable default_system_prompt : string.

(** [int(s)] and [float(s)] at startup. *)
Definition wint (s : string) : W Z :=
  match py_int s with Some z => wret z | None => wraise ValueError end.

Definition wfloat (s : string) : W spec_float :=
  match py_float s with Some f => wret f | None => wraise ValueError end.

(** [load_model_configuration]: [available_models] is the list
    [load_models_from_json] returned. *)
Definition load_model_configuration (env : gmap string string)
    (available_models : list pyval) : W ModeConfiguration :=
  model_name <-
    get_environment_variable env "OPENAI_MODEL" (Some "gpt-4o") false ;;
  (if negb (match model_name with
            | Some m => existsb (str_eq m) available_models
            | None => false
            end)
   then
     notify (ModelNotAvailable model_name) ;;
     names <- (match join_names available_models with
               | inr names => wret names
               | inl e => wraise e
               end) ;;
     notify (ModelsAre names) ;;
     wraise (SystemExit 1)
   else wret tt) ;;
  max_tokens_text <-
    get_environment_variable env "OPENAI_MAX_TOKENS" (Some "1024") false ;;
  (if nonempty max_tokens_text then
     let text := default "" max_tokens_text in
     rejected <-
       (if negb (isdigit text) then wret true
        else z <- wint text ;; wret (z <=? 0)%Z) ;;
     if rejected : bool then
       notify MaxTokensRejected ;;
       wraise (SystemExit 1)
     else wret tt
   else wret tt) ;;
  temperature_text <-
    get_environment_variable env "OPENAI_TEMPERATURE" (Some "0.7") false ;;
  (if nonempty temperature_text then
     let text := default "" temperature_text in
     rejected <-
       (if negb (isdigit (remove_first_dot text)) then wret true
        else f <- wfloat text ;; wret (negb (temp_in_range f))) ;;
     if rejected : bool then
       notify TemperatureRejected ;;
       wraise (SystemExit 1)
     else wret tt
   else wret tt) ;;
  prompt <-
    get_environment_variable env "OPENAI_SYSTEM_PROMPT"
      (Some default_system_prompt) false ;;
  prompt' <-
    (if negb (nonempty prompt) then
       notify PromptNotSet ;;
       wret prompt
     else if (1000 <? String.length (default "" prompt))%nat then
       notify PromptCut ;;
       let cut := str_take 1000 (default "" prompt) in
       notify (PromptSetTo cut) ;;
       wret (Some cut)
     else wret prompt) ;;
  tokens <-
    (if nonempty max_tokens_text then wint (default "" max_tokens_text)
     else wret 1024%Z) ;;
  temp <-
    (if nonempty temperature_text then wfloat (default "" temperature_text)
     else wret float_0_7) ;;
  wret {| model := match model_name with Some m => PStr m | None => PNone end;
          max_tokens := PInt tokens;
          temperature := PFloat temp;
          system_prompt :=
            match prompt' with Some p => PStr p | None => PNone end |}.

End Startup.

Close Scope startup_scope.

(** An environment that names a model and a token limit and sets the
    system prompt to the empty text; and one that names an unknown model. *)
Definition sample_env : gmap string string :=
  <["OPENAI_MODEL" := "gpt-4"]>
    (<["OPENAI_MAX_TOKENS" := "500"]>
       (<["OPENAI_SYSTEM_PROMPT" := ""]> ∅)).

Definition sample_env_unknown_model : gmap string string :=
  <["OPENAI_MODEL" := "gpt-5"]> ∅.

(** A text standing for the default system prompt on the samples. *)
Definition sample_default_prompt : string := "You are a helpful assistant.".

(* ===================================================================== *)
(** * Theorems *)
(* ===================================================================== *)

(** ** Reset *)

(** C8. Whatever the history was, [clear_history] leaves the one-element
    history [{"role": "developer", "content": system_prompt or ""}] built
    from the current system prompt, leaves [stats] (and the settings) as
    they were, and raises nothing. *)
Theorem clear_history_resets (w : World) :
  let r := clear_history w in
  r.1 = inr tt
  /\ conversation_history (self r.2)
     = [message "developer"
          (py_or (system_prompt (settings (self w))) (PStr ""))]
  /\ stats (self r.2) = stats (self w)
  /\ settings (self r.2) = settings (self w).
Proof. repeat split. Qed.

(** ** Temperature *)

Section Temperature.

Variable py_int : string -> option Z.
Variable py_float : string -> option spec_float.

(** C7. Setting the temperature from the text [value] never raises, and
    - either [value] is numeric ([float] returns [t]) with [0 <= t <= 2]:
      then [t] is stored as the temperature, nothing else of the object
      changes and the success message is printed;
    - or it is not: then the object is exactly as before and an error
      message is printed (out of range, or not a number). *)
Theorem temperature_set_iff_in_range (w : World) (value : string) :
  let r := adjust_settings py_int py_float "temperature" value w in
  r.1 = inr tt
  /\ ((exists t,
         py_float value = Some t /\ temp_in_range t = true
         /\ temperature (settings (self r.2)) = PFloat t
         /\ self r.2
            = with_settings (self w)
                {| model := model (settings (self w));
                   max_tokens := max_tokens (settings (self w));
                   temperature := PFloat t;
                   system_prompt := system_prompt (settings (self w)) |}
         /\ stdout r.2 = (stdout w ++ [TemperatureSet t])%list)
      \/ ((forall t, py_float value = Some t -> temp_in_range t = false)
          /\ self r.2 = self w
          /\ (stdout r.2 = (stdout w ++ [TemperatureOutOfRange])%list
              \/ stdout r.2 = (stdout w ++ [TemperatureInvalid])%list))).
Proof.
  cbn zeta.
  unfold adjust_settings, try_catch, bind, float_of; cbn -[SFleb].
  destruct (py_float value) as [t|] eqn:Hf; cbn -[SFleb].
  - fold (temp_in_range t).
    destruct (temp_in_range t) eqn:Hr; cbn; split; auto.
    + left. exists t. repeat split; auto.
    + right. split; [ | split; [destruct w as [[]]; reflexivity | auto] ].
      intros t' [= <-]. exact Hr.
  - split; auto. right. split; [discriminate | ].
    split; [destruct w as [[]]; reflexivity | auto].
Qed.

End Temperature.

(** The range test on samples: both ends are accepted, 3 is rejected, and
    so are the values that are not numbers of the range at all. *)
Example temp_in_range_samples :
  temp_in_range float_zero = true /\ temp_in_range float_0_7 = true
  /\ temp_in_range float_two = true /\ temp_in_range float_three = false
  /\ temp_in_range S754_nan = false
  /\ temp_in_range (S754_infinity false) = false
  /\ temp_in_range (S754_finite true 6305039478318694 (-53)) = false.
Proof. by repeat split. Qed.

Example temperature_commands :
  let set value :=
    temperature
      (settings
         (self (adjust_settings sample_int sample_float "temperature" value
                  (sample_world fresh_bot [] ∅)).2)) in
  set "2" = PFloat float_two /\ set "3" = PFloat float_0_7
  /\ set "warm" = PFloat float_0_7 /\ set "nan" = PFloat float_0_7.
Proof. by repeat split. Qed.

(** ** Relations kept by a computation *)

Section Keeps.

Context {A B : Type} (R : relation World).
Context `{!Reflexive R, !Transitive R}.

Lemma keeps_ret (a : A) : keeps R (ret a).
Proof. intros w; cbn. reflexivity. Qed.

Lemma keeps_raise (e : exn) : keeps R (@raise A e).
Proof. intros w; cbn. reflexivity. Qed.

Lemma keeps_lift (r : exn + A) : keeps R (lift r).
Proof. intros w; cbn. reflexivity. Qed.

Lemma keeps_bind (m : M A) (k : A -> M B) :
  keeps R m -> (forall a, keeps R (k a)) -> keeps R (bind m k).
Proof.
  intros Hm Hk w. unfold bind.
  specialize (Hm w). destruct (m w) as [[e|a] w']; cbn in *.
  - exact Hm.
  - etrans; [ exact Hm | apply Hk ].
Qed.

Lemma keeps_try_catch (caught : exn -> bool) (body : M A)
    (handler : exn -> M A) :
  keeps R body -> (forall e, keeps R (handler e)) ->
  keeps R (try_catch caught body handler).
Proof.
  intros Hb Hh w. unfold try_catch.
  specialize (Hb w). destruct (body w) as [[e|a] w']; cbn in *.
  - destruct (caught e); [ etrans; [ exact Hb | apply Hh ] | exact Hb ].
  - exact Hb.
Qed.

Lemma keeps_if (c : bool) (m1 m2 : M A) :
  keeps R m1 -> keeps R m2 -> keeps R (if c then m1 else m2).
Proof. destruct c; auto. Qed.

End Keeps.

Lemma keeps_get_self R `{!Reflexive R} : keeps R get_self.
Proof. intros w; cbn. reflexivity. Qed.

Lemma keeps_settings_getitem R `{!Reflexive R} key :
  keeps R (settings_getitem key).
Proof.
  intros w. unfold settings_getitem, bind, lift, get_self.
  destruct (getitem (settings (self w)) key); reflexivity.
Qed.

Lemma keeps_read_json R `{!Reflexive R} f : keeps R (read_json f).
Proof.
  intros w. unfold read_json. destruct (fs w !! f) as [[]|]; reflexivity.
Qed.

#[local] Instance pres_rel_refl P : Reflexive (pres_rel P).
Proof. intros w H; exact H. Qed.

#[local] Instance pres_rel_trans P : Transitive (pres_rel P).
Proof. intros w1 w2 w3 H12 H23 H. auto. Qed.

#[local] Instance emit_rel_refl ok : Reflexive (emit_rel ok).
Proof. intros w. exists []. split; [ by rewrite app_nil_r | constructor ]. Qed.

#[local] Instance emit_rel_trans ok : Transitive (emit_rel ok).
Proof.
  intros w1 w2 w3 (o1 & E1 & F1) (o2 & E2 & F2). exists (o1 ++ o2)%list. split.
  - by rewrite E2, E1, app_assoc.
  - by apply Forall_app.
Qed.

(** The object-only relation ignores what is printed, read or written. *)

Lemma preserves_print P o : keeps (pres_rel P) (print o).
Proof. intros w H; exact H. Qed.

Lemma preserves_input P o : keeps (pres_rel P) (input o).
Proof.
  intros w H. unfold input, bind, print; cbn. destruct (stdin w); exact H.
Qed.

Lemma preserves_now P : keeps (pres_rel P) now.
Proof. intros w H; exact H. Qed.

Lemma preserves_write_json P f doc : keeps (pres_rel P) (write_json f doc).
Proof. intros w H. unfold write_json. case_bool_decide; exact H. Qed.

(** The output-only relation ignores the object, the input, the files and
    the clock. *)

Lemma emits_print ok o : ok o = true -> keeps (emit_rel ok) (print o).
Proof. intros H w. exists [o]. split; [ reflexivity | by repeat constructor ]. Qed.

Lemma emits_input ok o : ok o = true -> keeps (emit_rel ok) (input o).
Proof.
  intros H w. exists [o].
  split; [ | by repeat constructor ].
  unfold input, bind, print; cbn. by destruct (stdin w).
Qed.

Lemma emit_rel_silent ok (w w' : World) :
  stdout w' = stdout w -> emit_rel ok w w'.
Proof.
  intros E. exists []. split; [ by rewrite app_nil_r | constructor ].
Qed.

Lemma emits_now ok : keeps (emit_rel ok) now.
Proof. intros w. by apply emit_rel_silent. Qed.

Lemma emits_put_self ok b : keeps (emit_rel ok) (put_self b).
Proof. intros w. by apply emit_rel_silent. Qed.

Lemma emits_write_json ok f doc : keeps (emit_rel ok) (write_json f doc).
Proof.
  intros w. apply emit_rel_silent. unfold write_json. by case_bool_decide.
Qed.

Create HintDb keeps.
#[local] Hint Resolve keeps_ret keeps_raise keeps_lift keeps_get_self
  keeps_settings_getitem keeps_read_json
  preserves_print preserves_input preserves_now preserves_write_json
  emits_print emits_input emits_now emits_put_self emits_write_json : keeps.
#[local] Hint Extern 1 (_ = true) => reflexivity : keeps.
#[local] Hint Extern 1 (Reflexive _) => typeclasses eauto : keeps.

(** One step through the structure of a computation. *)
Ltac keeps_step :=
  first
    [ solve [ auto with keeps ]
    | match goal with
      | |- keeps _ (bind _ _) =>
          apply keeps_bind; [ typeclasses eauto | | intros ? ]
      | |- keeps _ (try_catch _ _ _) =>
          apply keeps_try_catch; [ typeclasses eauto | | intros ? ]
      | |- keeps _ (if _ then _ else _) => apply keeps_if
      | |- keeps _ (match ?x with _ => _ end) => destruct x
      | |- Reflexive _ => typeclasses eauto
      | |- Transitive _ => typeclasses eauto
      end ].

Ltac keeps_auto := unfold preserves, emits; repeat keeps_step.

(** ** The first element of the history *)

Lemma head_ok_dict (b : ChatBot) :
  head_ok b ->
  exists d rest, conversation_history b = PDict d :: rest
                 /\ (d !! "role" = Some (PStr "developer")
                     \/ d !! "role" = Some (PStr "system")).
Proof.
  unfold head_ok, head_role.
  destruct (conversation_history b) as [|[] rest];
    try (intros [|]; discriminate).
  intros H. eauto.
Qed.

Lemma head_ok_init models c start : head_ok (ChatBot_init models c start).
Proof. left. reflexivity. Qed.

Lemma head_ok_clear_history : keeps (pres_rel head_ok) clear_history.
Proof. intros w _. left. reflexivity. Qed.

Lemma head_ok_append_history x : keeps (pres_rel head_ok) (append_history x).
Proof.
  intros w H. destruct (head_ok_dict _ H) as (d & rest & E & Hrole).
  unfold head_ok, head_role; cbn. rewrite E. exact Hrole.
Qed.

Lemma head_ok_extend_history v : keeps (pres_rel head_ok) (extend_history v).
Proof.
  intros w H. unfold extend_history, bind, lift; cbn.
  destruct (iterate v) as [e|items]; cbn; [ exact H | ].
  destruct (head_ok_dict _ H) as (d & rest & E & Hrole).
  unfold head_ok, head_role; cbn. rewrite E. exact Hrole.
Qed.

Lemma head_ok_modify_stats f : keeps (pres_rel head_ok) (modify_stats f).
Proof. intros w H. exact H. Qed.

Lemma head_ok_put_settings c : keeps (pres_rel head_ok) (put_settings c).
Proof. intros w H. exact H. Qed.

Lemma head_ok_put_system_entry content :
  keeps (pres_rel head_ok) (put_history [message "system" content]).
Proof. intros w _. right. reflexivity. Qed.

#[local] Hint Resolve head_ok_clear_history head_ok_append_history
  head_ok_extend_history head_ok_modify_stats head_ok_put_settings
  head_ok_put_system_entry : keeps.

Lemma head_ok_save_conversation filename :
  preserves head_ok (save_conversation filename).
Proof. unfold save_conversation, try_except. keeps_auto. Qed.

Lemma head_ok_load_conversation_rest filename data setting :
  preserves head_ok (load_conversation_rest filename data setting).
Proof. unfold load_conversation_rest. keeps_auto. Qed.

Lemma head_ok_load_conversation filename :
  preserves head_ok (load_conversation filename).
Proof.
  unfold load_conversation, try_except.
  keeps_auto; apply head_ok_load_conversation_rest.
Qed.

Section HeadInvariant.

Variable py_int : string -> option Z.
Variable py_float : string -> option spec_float.

Lemma head_ok_chat client text : preserves head_ok (chat client text).
Proof. unfold chat, try_except. keeps_auto. Qed.

Lemma head_ok_adjust_settings setting value :
  preserves head_ok (adjust_settings py_int py_float setting value).
Proof.
  intros w H. destruct (head_ok_dict _ H) as (d & rest & E & Hrole).
  unfold adjust_settings.
  destruct (String.eqb setting "model").
  { unfold bind; cbn. case_bool_decide; cbn; [ | exact H ].
    destruct (str_eq _ _); exact H. }
  destruct (String.eqb setting "max_tokens").
  { unfold try_catch, bind, int_of; cbn.
    destruct (py_int value) as [z|]; cbn; [ | exact H ].
    destruct (0 <? z)%Z; exact H. }
  destruct (String.eqb setting "temperature").
  { unfold try_catch, bind, float_of; cbn -[SFleb].
    destruct (py_float value) as [t|]; cbn -[SFleb]; [ | exact H ].
    destruct (SFleb float_zero t && SFleb t float_two); exact H. }
  destruct (String.eqb setting "system_prompt"); [ | exact H ].
  destruct (String.eqb value ""); cbn [negb]; [ exact H | ].
  unfold bind, set_head_content.
  destruct (1000 <? String.length value)%nat;
    cbn -[str_take]; rewrite E; cbn -[str_take];
    unfold head_ok, head_role; cbn -[str_take];
    rewrite lookup_insert_ne by discriminate; exact Hrole.
Qed.

Lemma head_ok_print_models current models :
  preserves head_ok (print_models current models).
Proof. induction models; cbn; keeps_auto. Qed.

Lemma head_ok_handle_command user_input :
  preserves head_ok (handle_command py_int py_float user_input).
Proof.
  unfold handle_command, show_stats, show_settings.
  keeps_auto;
    first [ apply head_ok_adjust_settings
          | apply head_ok_load_conversation
          | apply head_ok_save_conversation
          | apply head_ok_print_models ].
Qed.

Lemma head_ok_run_turn client :
  preserves head_ok (run_turn py_int py_float client).
Proof.
  unfold run_turn.
  keeps_auto; first [ apply head_ok_handle_command | apply head_ok_chat ].
Qed.

(** In every state of a session the history starts with a dict whose
    role is ["developer"] or ["system"]. *)
Lemma reachable_head_ok (b : ChatBot) :
  reachable py_int py_float b -> head_ok b.
Proof.
  induction 1 as [models c start | client w _ IH].
  - apply head_ok_init.
  - by apply head_ok_run_turn.
Qed.

End HeadInvariant.

(** ** System prompt *)

Lemma str_take_length (n : nat) (s : string) :
  String.length (str_take n s) = Nat.min n (String.length s).
Proof.
  revert s; induction n as [|n IH]; intros [|a s]; cbn; auto.
Qed.

Lemma str_take_prefix (n : nat) (s : string) :
  exists tail, s = str_take n s ++ tail.
Proof.
  revert s; induction n as [|n IH]; intros s.
  - exists s. by destruct s.
  - destruct s as [|a s]; [ by exists "" | ].
    destruct (IH s) as [tail E]. exists tail.
    change (String a s = String a (str_take n s ++ tail)). by f_equal.
Qed.

Section SystemPrompt.

Variable py_int : string -> option Z.
Variable py_float : string -> option spec_float.

(** C9. In every state of a session, setting the system prompt to a
    text of more than 1000 characters raises nothing, prints the warning
    and then the confirmation, and leaves the first 1000 characters of the
    text both as [settings.system_prompt] and as the content of the first
    element of the history; the rest of that element and of the history
    is as before. The method returns with both updated: no state in which
    only one of them changed is handed back. *)
Theorem long_prompt_truncated_and_propagated (w : World) (value : string) :
  reachable py_int py_float (self w) ->
  1000 < String.length value ->
  let r := adjust_settings py_int py_float "system_prompt" value w in
  let stored := str_take 1000 value in
  r.1 = inr tt
  /\ String.length stored = 1000
  /\ (exists tail, value = stored ++ tail)
  /\ system_prompt (settings (self r.2)) = PStr stored
  /\ head_content (self r.2) = Some (PStr stored)
  /\ head_role (self r.2) = head_role (self w)
  /\ drop 1 (conversation_history (self r.2))
     = drop 1 (conversation_history (self w))
  /\ stdout r.2 = (stdout w ++ [PromptTooLong; PromptUpdated])%list.
Proof.
  intros Hreach Hlen.
  destruct (head_ok_dict _ (reachable_head_ok _ _ _ Hreach))
    as (d & rest & E & _).
  assert (Hne : String.eqb value "" = false).
  { destruct value; [ cbn in Hlen; lia | reflexivity ]. }
  assert (Hlong : (1000 <? String.length value)%nat = true)
    by (apply Nat.ltb_lt; exact Hlen).
  cbn zeta. unfold adjust_settings. cbn [String.eqb Ascii.eqb Bool.eqb].
  rewrite Hne. cbn [negb]. unfold bind, set_head_content.
  rewrite Hlong. cbn -[str_take]. rewrite E. cbn -[str_take].
  unfold head_content, head_role. cbn -[str_take]. rewrite E.
  repeat split.
  - rewrite str_take_length. lia.
  - apply str_take_prefix.
  - apply lookup_insert_eq.
  - by rewrite lookup_insert_ne.
  - by rewrite <- app_assoc.
Qed.

End SystemPrompt.

(** A prompt of 1500 characters in the state [__init__] builds. *)
Lemma long_prompt_truncated_and_propagated_witness :
  let r := adjust_settings sample_int sample_float "system_prompt"
             (str_repeat "p" 1500) (sample_world fresh_bot [] ∅) in
  system_prompt (settings (self r.2)) = PStr (str_repeat "p" 1000)
  /\ head_content (self r.2) = Some (PStr (str_repeat "p" 1000))
  /\ stdout r.2 = [PromptTooLong; PromptUpdated].
Proof.
  pose proof (long_prompt_truncated_and_propagated sample_int sample_float
                (sample_world fresh_bot [] ∅) (str_repeat "p" 1500)
                (reachable_init _ _ _ _ _)
                ltac:(apply Nat.ltb_lt; vm_compute; reflexivity)) as H.
  cbn zeta in *.
  destruct H as (_ & _ & _ & Hs & Hc & _ & _ & Ho).
  assert (str_take 1000 (str_repeat "p" 1500) = str_repeat "p" 1000) as E
    by (vm_compute; reflexivity).
  rewrite E in Hs, Hc.
  repeat split; assumption.
Defined.


(** ** Loading a conversation *)

Lemma subscript_Exception v key e :
  subscript v key = inl e -> is_Exception e = true.
Proof.
  destruct v; cbn; try (intros [= <-]; reflexivity).
  destruct (d !! key); intros [= <-]; reflexivity.
Qed.

Lemma from_dict_Exception v e : from_dict v = inl e -> is_Exception e = true.
Proof.
  unfold from_dict.
  destruct (subscript v "model") eqn:E1;
    [ intros [= <-]; eapply subscript_Exception, E1 | ].
  destruct (subscript v "max_tokens") eqn:E2;
    [ intros [= <-]; eapply subscript_Exception, E2 | ].
  destruct (subscript v "temperature") eqn:E3;
    [ intros [= <-]; eapply subscript_Exception, E3 | ].
  destruct v; cbn; intros [= <-]; reflexivity.
Qed.

Lemma read_settings_Exception w filename e :
  read_settings w filename = inl e -> is_Exception e = true.
Proof.
  unfold read_settings.
  destruct (fs w !! filename) as [[|data]|];
    try (intros [= <-]; reflexivity).
  destruct (subscript data "settings") eqn:E1;
    [ intros [= <-]; eapply subscript_Exception, E1 | ].
  destruct (from_dict p) eqn:E2; [ | discriminate ].
  intros [= <-]; eapply from_dict_Exception, E2.
Qed.

(** [load_conversation] in two cases. When the file cannot be read or its
    settings cannot be parsed, only the failure message is printed. When
    they can, the history is replaced by its new first element, and the
    rest of the [try] block runs from there: the test on the length of
    the history, made on that one-element list, is passed over. *)
Lemma load_conversation_unfold (w : World) (filename : string) :
  load_conversation filename w
  = match read_settings w filename with
    | inl e => print (LoadFailed e) w
    | inr (data, setting) =>
        try_except (load_conversation_rest filename data setting)
          (fun e => print (LoadFailed e))
          (with_self w
             (with_history (self w)
                [message "system"
                   (py_or (system_prompt setting) (PStr ""))]))
    end.
Proof.
  destruct (read_settings w filename) as [e|[data setting]] eqn:E.
  - pose proof (read_settings_Exception _ _ _ E) as He.
    revert E. unfold read_settings, load_conversation, try_except, try_catch.
    unfold bind at 1, read_json.
    destruct (fs w !! filename) as [[|data]|]; try (intros [= <-]; reflexivity).
    unfold bind at 1, lift at 1.
    destruct (subscript data "settings") as [e1|sd];
      [ intros [= <-]; by rewrite He | ].
    unfold bind at 1, lift at 1.
    destruct (from_dict sd) as [e2|s]; [ | discriminate ].
    intros [= <-]; by rewrite He.
  - revert E. unfold read_settings, load_conversation, try_except, try_catch.
    unfold bind at 1, read_json.
    destruct (fs w !! filename) as [[|data']|]; try discriminate.
    unfold bind at 1, lift at 1.
    destruct (subscript data' "settings") as [e1|sd]; [ discriminate | ].
    unfold bind at 1, lift at 1.
    destruct (from_dict sd) as [e2|s]; [ discriminate | ].
    intros [= <- <-]. reflexivity.
Qed.

Lemma try_catch_bind {A B : Type} (caught : exn -> bool) (m : M A)
    (k : A -> M B) (handler : exn -> M B) (w : World) :
  try_catch caught (bind m k) handler w
  = match m w with
    | (inl e, w') => if caught e then handler e w' else (inl e, w')
    | (inr a, w') => try_catch caught (k a) handler w'
    end.
Proof. unfold try_catch, bind. by destruct (m w) as [[e|a] w']. Qed.

Lemma read_settings_decoded w filename data settings_data setting :
  fs w !! filename = Some (Json data) ->
  subscript data "settings" = inr settings_data ->
  from_dict settings_data = inr setting ->
  read_settings w filename = inr (data, setting).
Proof.
  intros Hfile Hsettings Hfrom. unfold read_settings.
  by rewrite Hfile, Hsettings, Hfrom.
Qed.

Lemma emits_extend_history ok v : keeps (emit_rel ok) (extend_history v).
Proof.
  intros w. apply emit_rel_silent.
  unfold extend_history, bind, lift; cbn. by destruct (iterate v).
Qed.

Lemma emits_put_settings ok c : keeps (emit_rel ok) (put_settings c).
Proof. intros w. by apply emit_rel_silent. Qed.

(** What [load_conversation] does after it has read the conversation from
    the document and extended the history with it. *)
Lemma load_conversation_rest_extended (filename : string)
    (data conversation : pyval) (items : list pyval)
    (setting : ModeConfiguration) (w : World) :
  subscript data "conversation" = inr conversation ->
  iterate conversation = inr items ->
  exists k : M unit,
    try_except (load_conversation_rest filename data setting)
      (fun e => print (LoadFailed e)) w
    = k (with_self w
           (with_history (self w) (conversation_history (self w) ++ items)))
    /\ (forall P, preserves (fun b => P (conversation_history b)) k)
    /\ emits (fun o => negb (is_overwrite_dialogue o)) k.
Proof.
  intros Hconv Hiter.
  unfold try_except, load_conversation_rest.
  rewrite try_catch_bind. unfold lift at 1. rewrite Hconv.
  rewrite try_catch_bind.
  unfold extend_history at 1, bind at 1, lift at 1. rewrite Hiter. cbn beta iota.
  eexists. split; [ reflexivity | ].
  split; [ intros P | ]; keeps_auto.
  all: try (intros w' H; exact H).
  all: try apply emits_put_settings.
Qed.

Lemma not_overwrite_dialogue (out : list output) (o : output) :
  Forall (fun o => negb (is_overwrite_dialogue o) = true) out ->
  is_overwrite_dialogue o = true -> o ∉ out.
Proof.
  intros Hall Ho Hin. rewrite Forall_forall in Hall.
  specialize (Hall o Hin). by rewrite Ho in Hall.
Qed.

Lemma emits_load_conversation filename :
  emits (fun o => negb (is_overwrite_dialogue o)) (load_conversation filename).
Proof.
  intros w. rewrite load_conversation_unfold.
  destruct (read_settings w filename) as [e|[data setting]].
  - by apply emits_print.
  - assert (emits (fun o => negb (is_overwrite_dialogue o))
              (try_except (load_conversation_rest filename data setting)
                 (fun e => print (LoadFailed e)))) as H.
    { unfold try_except, load_conversation_rest. keeps_auto.
      all: first [ apply emits_extend_history | apply emits_put_settings ]. }
    apply (H (with_self w _)).
Qed.

(** C10. [load_conversation] never asks the operator to confirm the
    overwriting of the history: for every file and every state, neither the
    warning, nor the question, nor the cancellation message is printed.
    And when the file holds a document whose settings parse and whose
    conversation can be iterated, the history after the call is the new
    first element followed by the items of the file: nothing of the
    previous history is kept, whatever the operator types. *)
Theorem overwrite_confirmation_unreachable (w : World) (filename : string) :
  let out := printed (load_conversation filename) w in
  ((WarnOverwriteHistory ∉ out) /\ (AskOverwriteHistory ∉ out)
   /\ (LoadCancelled ∉ out))
  /\ (forall data settings_data setting conversation items,
        fs w !! filename = Some (Json data) ->
        subscript data "settings" = inr settings_data ->
        from_dict settings_data = inr setting ->
        subscript data "conversation" = inr conversation ->
        iterate conversation = inr items ->
        conversation_history (self (load_conversation filename w).2)
        = message "system" (py_or (system_prompt setting) (PStr ""))
          :: items).
Proof.
  cbn zeta. split.
  - destruct (emits_load_conversation filename w) as (out & E & Hall).
    unfold printed. rewrite E, drop_app_length.
    repeat split; by apply (not_overwrite_dialogue out).
  - intros data sd setting conversation items Hfile Hsd Hfrom Hconv Hiter.
    rewrite load_conversation_unfold.
    rewrite (read_settings_decoded _ _ _ _ _ Hfile Hsd Hfrom).
    destruct (load_conversation_rest_extended filename data conversation
                items setting (with_self w
                  (with_history (self w)
                     [message "system"
                        (py_or (system_prompt setting) (PStr ""))]))
                Hconv Hiter) as (k & -> & Hk & _).
    apply (Hk (fun h => h = _ :: items)). reflexivity.
Qed.

(** The file of the sample holds a document that decodes; the session that
    loads it has a history of three messages. *)
Lemma overwrite_confirmation_unreachable_witness :
  conversation_history
    (self (load_conversation "chat.json"
             (sample_world busy_bot ["yes"]
                {["chat.json" := Json sample_document]})).2)
  = [message "system" (PStr "Answer in French.");
     message "user" (PStr "bonjour");
     message "assistant" (PStr "salut")].
Proof.
  apply (proj2 (overwrite_confirmation_unreachable
                  (sample_world busy_bot ["yes"]
                     {["chat.json" := Json sample_document]})
                  "chat.json")
           sample_document sample_settings_data
           {| model := PStr "gpt-4"; max_tokens := PInt 256;
              temperature := PFloat float_two;
              system_prompt := PStr "Answer in French." |}
           (PList [message "user" (PStr "bonjour");
                   message "assistant" (PStr "salut")])
           [message "user" (PStr "bonjour");
            message "assistant" (PStr "salut")]);
    reflexivity.
Defined.

(** C6. When the file holds a document whose settings parse and whose
    conversation is a list, and the operator answers anything but [yes] to
    the question about the settings, [load_conversation] returns normally,
    the configuration is the one that was active before (so its model,
    token limit and temperature are unchanged), and the history from index
    1 on is the list of the file. *)
Theorem load_declined_keeps_configuration (w : World) (filename : string)
    (data settings_data : pyval) (setting : ModeConfiguration)
    (items : list pyval) (line : string) (rest : list string) :
  fs w !! filename = Some (Json data) ->
  subscript data "settings" = inr settings_data ->
  from_dict settings_data = inr setting ->
  subscript data "conversation" = inr (PList items) ->
  stdin w = line :: rest ->
  lower (strip line) <> "yes" ->
  let r := load_conversation filename w in
  r.1 = inr tt
  /\ settings (self r.2) = settings (self w)
  /\ model (settings (self r.2)) = model (settings (self w))
  /\ max_tokens (settings (self r.2)) = max_tokens (settings (self w))
  /\ temperature (settings (self r.2)) = temperature (settings (self w))
  /\ drop 1 (conversation_history (self r.2)) = items
  /\ stats (self r.2) = stats (self w)
  /\ stdout r.2
     = (stdout w ++ [WarnOverwriteSettings; AskOverwriteSettings;
                     SettingsKept; Loaded filename;
                     LoadedCount (length items)])%list.
Proof.
  intros Hfile Hsd Hfrom Hconv Hin Hno. cbn zeta.
  apply String.eqb_neq in Hno.
  rewrite load_conversation_unfold.
  rewrite (read_settings_decoded _ _ _ _ _ Hfile Hsd Hfrom).
  unfold try_except, try_catch, load_conversation_rest, bind, lift,
    extend_history, input, print.
  rewrite Hconv. cbn. rewrite Hin. cbn.
  rewrite Hno. cbn.
  repeat split. by rewrite <- !app_assoc.
Qed.

Lemma load_declined_keeps_configuration_witness :
  let r := load_conversation "chat.json"
             (sample_world busy_bot ["  No "]
                {["chat.json" := Json sample_document]}) in
  settings (self r.2) = default_config
  /\ drop 1 (conversation_history (self r.2))
     = [message "user" (PStr "bonjour"); message "assistant" (PStr "salut")].
Proof.
  pose proof (load_declined_keeps_configuration
                (sample_world busy_bot ["  No "]
                   {["chat.json" := Json sample_document]})
                "chat.json" sample_document sample_settings_data
                {| model := PStr "gpt-4"; max_tokens := PInt 256;
                   temperature := PFloat float_two;
                   system_prompt := PStr "Answer in French." |}
                [message "user" (PStr "bonjour");
                 message "assistant" (PStr "salut")]
                "  No " []
                eq_refl eq_refl eq_refl eq_refl eq_refl
                ltac:(vm_compute; discriminate)) as H.
  cbn zeta in *. split; [ apply H | apply H ].
Defined.

(** X14. When the file cannot be read, or is not JSON, or has no
    ["settings"], or its settings lack a required key, [load_conversation]
    prints the failure and changes nothing else: the object, the pending
    input and the files are as before. *)
Lemma load_conversation_unreadable (w : World) (filename : string) (e : exn) :
  read_settings w filename = inl e ->
  let r := load_conversation filename w in
  r.1 = inr tt /\ self r.2 = self w /\ stdin r.2 = stdin w
  /\ fs r.2 = fs w /\ stdout r.2 = (stdout w ++ [LoadFailed e])%list.
Proof.
  intros E. cbn zeta. rewrite load_conversation_unfold, E. by repeat split.
Qed.

(** C3, at a file whose document has complete settings and no
    ["conversation"] key: the failure is reported as a [KeyError] and
    nothing is raised, but the history of three messages has been replaced
    by the single entry built from the settings of the file; the
    configuration and the stats are as before. *)
Theorem load_without_conversation_replaces_history :
  let w := sample_world busy_bot ["yes"]
             {["broken.json" := Json document_without_conversation]} in
  let r := load_conversation "broken.json" w in
  r.1 = inr tt
  /\ stdout r.2 = [LoadFailed (KeyError "conversation")]
  /\ conversation_history (self r.2)
     = [message "system" (PStr "Answer in French.")]
  /\ conversation_history (self r.2) <> conversation_history (self w)
  /\ settings (self r.2) = settings (self w)
  /\ stats (self r.2) = stats (self w).
Proof.
  cbn zeta. repeat split.
  intros H. apply (f_equal length) in H. vm_compute in H. discriminate.
Qed.

(** ** The role of the first element *)

(** C2, at a session that loads a saved conversation: the state after the
    loop iteration that runs [/load chat.json] is a state of the session,
    and the first element of its history has the role ["system"], where
    the state before had ["developer"]. *)
Theorem load_leaves_system_role :
  let w := sample_world fresh_bot ["/load chat.json"; "no"]
             {["chat.json" := Json sample_document]} in
  let b := self (run_turn sample_int sample_float client_up w).2 in
  reachable sample_int sample_float b
  /\ head_role (self w) = Some (PStr "developer")
  /\ head_role b = Some (PStr "system")
  /\ head_role b <> Some (PStr "developer").
Proof.
  cbn zeta. split; [ | split; [ | split ] ].
  - apply reachable_turn, reachable_init.
  - reflexivity.
  - vm_compute. reflexivity.
  - vm_compute. discriminate.
Qed.

(** Whenever the settings of the file parse, the first element that
    [load_conversation] leaves has the role ["system"]. *)
Lemma load_conversation_head_role (w : World) (filename : string)
    (data : pyval) (setting : ModeConfiguration) :
  read_settings w filename = inr (data, setting) ->
  head_role (self (load_conversation filename w).2) = Some (PStr "system").
Proof.
  intros E. rewrite load_conversation_unfold, E.
  assert (preserves (fun b => head_role b = Some (PStr "system"))
            (try_except (load_conversation_rest filename data setting)
               (fun e => print (LoadFailed e)))) as H.
  { unfold try_except, load_conversation_rest. keeps_auto.
    - intros w' H'. unfold extend_history, bind, lift; cbn.
      destruct (iterate a); cbn; [ exact H' | ].
      unfold head_role in *; cbn.
      destruct (conversation_history (self w')) as [|[] ?]; try discriminate.
      exact H'.
    - intros w' H'. exact H'. }
  apply H. reflexivity.
Qed.

(** ** Validity of the configuration *)

Section Validity.

Variable py_int : string -> option Z.
Variable py_float : string -> option spec_float.

(** [adjust_settings] validates before it stores: a valid configuration
    stays valid, whatever the setting and the value, and whether the call
    returns or raises. *)
Lemma adjust_settings_valid (setting value : string) :
  preserves config_ok (adjust_settings py_int py_float setting value).
Proof.
  intros w. unfold config_ok, valid_config. intros H.
  apply andb_prop in H as [H Hprompt]. apply andb_prop in H as [H Htemp].
  apply andb_prop in H as [Hmodel Htok].
  unfold adjust_settings.
  destruct (String.eqb setting "model").
  { unfold bind; cbn. case_bool_decide as Hin; cbn.
    - destruct (str_eq _ _); cbn; rewrite Htok, Htemp, Hprompt;
        by rewrite bool_decide_eq_true_2.
    - by rewrite Hmodel, Htok, Htemp, Hprompt. }
  destruct (String.eqb setting "max_tokens").
  { unfold try_catch, bind, int_of; cbn.
    destruct (py_int value) as [z|]; cbn;
      [ | by rewrite Hmodel, Htok, Htemp, Hprompt ].
    destruct (0 <? z)%Z eqn:Hz; cbn;
      [ by rewrite Hmodel, Hz, Htemp, Hprompt
      | by rewrite Hmodel, Htok, Htemp, Hprompt ]. }
  destruct (String.eqb setting "temperature").
  { unfold try_catch, bind, float_of; cbn -[SFleb].
    destruct (py_float value) as [t|]; cbn -[SFleb];
      [ | by rewrite Hmodel, Htok, Htemp, Hprompt ].
    destruct (SFleb float_zero t && SFleb t float_two) eqn:Ht; cbn -[SFleb];
      [ | by rewrite Hmodel, Htok, Htemp, Hprompt ].
    unfold temp_in_range. by rewrite Hmodel, Htok, Ht, Hprompt. }
  destruct (String.eqb setting "system_prompt");
    [ | cbn; by rewrite Hmodel, Htok, Htemp, Hprompt ].
  destruct (String.eqb value ""); cbn [negb];
    [ cbn; by rewrite Hmodel, Htok, Htemp, Hprompt | ].
  unfold bind, set_head_content.
  destruct (1000 <? String.length value)%nat eqn:Hlong.
  - cbn -[str_take Nat.leb].
    assert ((String.length (str_take 1000 value) <=? 1000)%nat = true) as Hp.
    { apply Nat.leb_le. rewrite str_take_length. lia. }
    destruct (conversation_history (self w)) as [|[] ?];
      cbn -[str_take Nat.leb]; by rewrite Hmodel, Htok, Htemp, Hp.
  - cbn -[Nat.leb].
    assert ((String.length value <=? 1000)%nat = true) as Hp.
    { apply Nat.leb_le. apply Nat.ltb_ge in Hlong. lia. }
    destruct (conversation_history (self w)) as [|[] ?];
      cbn -[Nat.leb]; by rewrite Hmodel, Htok, Htemp, Hp.
Qed.

End Validity.

(** C5, at a file whose settings break the four rules, loaded with the
    merge confirmed: the configuration was valid before the call and is
    not after it; the model is not in the list, the token limit is
    negative, the temperature is above 2 and the prompt has 1001
    characters. *)
Theorem load_commits_unvalidated_settings :
  let w := sample_world fresh_bot ["yes"]
             {["bad.json" := Json document_with_invalid_settings]} in
  let r := load_conversation "bad.json" w in
  valid_config (available_models (self w)) (settings (self w)) = true
  /\ r.1 = inr tt
  /\ valid_config (available_models (self r.2)) (settings (self r.2)) = false
  /\ model (settings (self r.2)) = PStr "no-such-model"
  /\ max_tokens (settings (self r.2)) = PInt (-5)
  /\ temperature (settings (self r.2)) = PFloat float_9_5
  /\ temp_in_range float_9_5 = false
  /\ system_prompt (settings (self r.2)) = PStr (str_repeat "x" 1001).
Proof. cbn zeta. repeat split; vm_compute; reflexivity. Qed.

(** ** Saving and loading back *)

Lemma from_dict_to_dict (c : ModeConfiguration) : from_dict (to_dict c) = inr c.
Proof. by destruct c. Qed.

Lemma save_conversation_writes (w : World) (filename : string) :
  filename ∉ readonly w ->
  let r := save_conversation (Some filename) w in
  r.1 = inr tt
  /\ fs r.2 !! filename
     = Some (Json (conversation_data (self w) (clock w (ticks w))))
  /\ self r.2 = self w.
Proof.
  intros Hw. cbn zeta.
  unfold save_conversation, try_except, try_catch, bind, write_json; cbn.
  rewrite bool_decide_eq_false_2 by exact Hw. cbn.
  repeat split. apply lookup_insert_eq.
Qed.

Lemma read_settings_conversation_data (w : World) (filename : string)
    (b : ChatBot) (timestamp : datetime) :
  fs w !! filename = Some (Json (conversation_data b timestamp)) ->
  read_settings w filename = inr (conversation_data b timestamp, settings b).
Proof.
  intros Hfile.
  apply (read_settings_decoded _ _ _ (to_dict (settings b)));
    [ exact Hfile | reflexivity | apply from_dict_to_dict ].
Qed.

Lemma conversation_data_conversation (b : ChatBot) (timestamp : datetime) :
  subscript (conversation_data b timestamp) "conversation"
  = inr (PList (drop 1 (conversation_history b))).
Proof. reflexivity. Qed.

(** C1, as the code has it. A conversation saved to a writable file and
    loaded back, the operator confirming the settings, gives back the
    configuration and the history from index 1 on exactly as they were
    saved. The stats and the timestamp are written but not read back: the
    stats after the load are those of the session that loads. *)
Theorem save_then_load_restores (saver : World) (filename : string)
    (b : ChatBot) (line : string) (rest : list string) :
  filename ∉ readonly saver ->
  lower (strip line) = "yes" ->
  let r := save_then_load saver filename b (line :: rest) in
  r.1 = inr tt
  /\ settings (self r.2) = settings (self saver)
  /\ drop 1 (conversation_history (self r.2))
     = drop 1 (conversation_history (self saver))
  /\ stats (self r.2) = stats b.
Proof.
  intros Hw Hyes. cbn zeta. unfold save_then_load.
  destruct (save_conversation_writes saver filename Hw) as (_ & Hfile & _).
  cbn zeta in Hfile.
  set (saved := (save_conversation (Some filename) saver).2) in *.
  rewrite load_conversation_unfold.
  rewrite (read_settings_conversation_data _ _ (self saver)
             (clock saver (ticks saver))) by exact Hfile.
  unfold try_except, try_catch, load_conversation_rest, bind, lift,
    extend_history, input, print, put_settings.
  rewrite conversation_data_conversation.
  cbn -[lower strip]. rewrite Hyes. cbn. by repeat split.
Qed.

Lemma save_then_load_restores_witness :
  let r := save_then_load (sample_world busy_bot [] ∅) "out.json"
             fresh_bot [" YES "] in
  settings (self r.2) = settings busy_bot
  /\ drop 1 (conversation_history (self r.2))
     = drop 1 (conversation_history busy_bot)
  /\ stats (self r.2) = stats fresh_bot.
Proof.
  pose proof (save_then_load_restores (sample_world busy_bot [] ∅)
                "out.json" fresh_bot " YES " []
                ltac:(vm_compute; set_solver)
                ltac:(vm_compute; reflexivity)) as H.
  cbn zeta in *. destruct H as (_ & H1 & H2 & H3). by repeat split.
Defined.

(** C1, as the claim states it, fails on the stats. The session of the
    sample has 1 message and 7 tokens in its stats when it saves, and the
    file holds these numbers; a new session that loads the file still has
    0 and 0. And the same session saved one exchange later, with other
    stats, loads to the very same state: the stats of the file do not
    reach the session. *)
Lemma save_then_load_drops_stats :
  let r := save_then_load (sample_world busy_bot [] ∅) "out.json"
             fresh_bot ["yes"] in
  let r' := save_then_load (sample_world busier_bot [] ∅) "out.json"
              fresh_bot ["yes"] in
  r.1 = inr tt
  /\ (exists doc stats_data,
        fs r.2 !! "out.json" = Some (Json doc)
        /\ subscript doc "stats" = inr stats_data
        /\ subscript stats_data "total_messages" = inr (PInt 1)
        /\ subscript stats_data "total_tokens_used" = inr (PInt 7))
  /\ stats (self r.2) <> stats busy_bot
  /\ total_messages (stats (self r.2)) = 0%Z
  /\ total_tokens_used (stats (self r.2)) = 0%Z
  /\ stats busier_bot <> stats busy_bot
  /\ self r'.2 = self r.2.
Proof.
  cbn zeta. split; [ reflexivity | ]. split.
  { eexists _, _. repeat split; reflexivity. }
  split; [ vm_compute; discriminate | ].
  split; [ reflexivity | ]. split; [ reflexivity | ].
  split; [ vm_compute; discriminate | reflexivity ].
Qed.

(** ** A failed generation call *)

Section FailedCall.

Variable client : Request -> exn + Response.

(** C4, as the code has it. When the call to the remote service raises an
    exception, [chat] raises nothing and returns the text that renders the
    exception; the user message stays at the end of the history and no
    assistant message follows it; the stats are as before, so the turn is
    not counted in [total_messages]; nothing else changes. *)
Theorem chat_failure_keeps_user_message (w : World) (text : string)
    (e : exn) :
  client (chat_request (self w) text) = inl e ->
  is_Exception e = true ->
  let r := chat client text w in
  r.1 = inr (ErrorText e)
  /\ conversation_history (self r.2)
     = (conversation_history (self w) ++ [message "user" (PStr text)])%list
  /\ stats (self r.2) = stats (self w)
  /\ total_messages (stats (self r.2)) = total_messages (stats (self w))
  /\ settings (self r.2) = settings (self w)
  /\ stdout r.2 = stdout w.
Proof.
  intros Hcall He. cbn zeta.
  unfold chat, try_except, try_catch, bind, lift, append_history; cbn.
  unfold chat_request in Hcall. rewrite Hcall, He. by repeat split.
Qed.

End FailedCall.

Lemma chat_failure_keeps_user_message_witness :
  let r := chat client_down "hi" (sample_world busy_bot [] ∅) in
  r.1 = inr (ErrorText (APIError "connection refused"))
  /\ conversation_history (self r.2)
     = (conversation_history busy_bot ++ [message "user" (PStr "hi")])%list
  /\ total_messages (stats (self r.2)) = 1%Z.
Proof.
  pose proof (chat_failure_keeps_user_message client_down
                (sample_world busy_bot [] ∅) "hi"
                (APIError "connection refused") eq_refl eq_refl) as H.
  cbn zeta in *. destruct H as (H1 & H2 & _ & H4 & _). by repeat split.
Defined.

(** C4, as the claim states it, fails on the count. The remote service is
    down; the session had 1 message in its stats before the call and still
    has 1 after it, not 2; the history ends with the user message, and the
    rendered error is the returned value, not an element of the history. *)
Lemma chat_failure_not_counted :
  let w := sample_world busy_bot [] ∅ in
  let r := chat client_down "hi" w in
  client_down (chat_request (self w) "hi")
  = inl (APIError "connection refused")
  /\ r.1 = inr (ErrorText (APIError "connection refused"))
  /\ total_messages (stats (self r.2))
     <> (total_messages (stats (self w)) + 1)%Z
  /\ total_messages (stats (self r.2)) = 1%Z
  /\ last (conversation_history (self r.2))
     = Some (message "user" (PStr "hi"))
  /\ length (conversation_history (self r.2))
     = S (length (conversation_history (self w))).
Proof.
  cbn zeta. repeat split. vm_compute. discriminate.
Qed.

(** X10. When the call succeeds, [chat] returns the text of the response,
    the history grows by the user message and the assistant message, the
    turn is counted once in [total_messages], and the tokens the response
    reports, if any, are added to [total_tokens_used]. *)
Lemma chat_success_counts (client : Request -> exn + Response) (w : World)
    (text : string) (response : Response) :
  client (chat_request (self w) text) = inr response ->
  let r := chat client text w in
  r.1 = inr (Text (output_text response))
  /\ conversation_history (self r.2)
     = (conversation_history (self w)
        ++ [message "user" (PStr text);
            message "assistant" (PStr (output_text response))])%list
  /\ total_messages (stats (self r.2))
     = (total_messages (stats (self w)) + 1)%Z
  /\ total_tokens_used (stats (self r.2))
     = (total_tokens_used (stats (self w)) + default 0 (usage response))%Z.
Proof.
  intros Hcall. cbn zeta.
  unfold chat, try_except, try_catch, bind, lift, append_history,
    modify_stats; cbn.
  unfold chat_request in Hcall. rewrite Hcall. cbn.
  destruct (usage response) as [n|]; cbn; repeat split;
    try (by rewrite <- app_assoc); lia.
Qed.

(** ** A session from start to exit *)

(** The operator sets the token limit, tries a negative one, saves, clears,
    loads the file back and declines the settings, then quits: the limit
    is 500 throughout, the history is the first element alone, and the
    loop ends with the exit raised by [/quit]. *)
Example session_scenario :
  let r := run sample_int sample_float client_up 10
             (sample_world fresh_bot
                ["/tokens 500"; "/tokens -5"; "/save out.json"; "/clear";
                 "/load out.json"; ""; "/quit"] ∅) in
  r.1 = inl (SystemExit 0)
  /\ max_tokens (settings (self r.2)) = PInt 500
  /\ drop 1 (conversation_history (self r.2)) = []
  /\ stdout r.2
     = [AskLine; TokensSet 500; AskLine; TokensNotPositive; AskLine;
        Saved "out.json"; AskLine; HistoryCleared; AskLine;
        WarnOverwriteSettings; AskOverwriteSettings; SettingsKept;
        Loaded "out.json"; LoadedCount 0; AskLine; Goodbye].
Proof. cbn zeta. repeat split; vm_compute; reflexivity. Qed.

(* ===================================================================== *)
(** * Further properties of the configuration object *)
(* ===================================================================== *)

(** X1. Item assignment and item access fit together: after
    [c[key] = value] the key reads as [value] and every other key reads as
    before; and a key that cannot be assigned ([KeyError]) cannot be read
    either, with the same error. *)
Theorem setitem_then_getitem (c : ModeConfiguration) (key : string)
    (value : pyval) :
  match setitem c key value with
  | inr c' =>
      getitem c' key = inr value
      /\ (forall key', key' <> key -> getitem c' key' = getitem c key')
  | inl e => e = KeyError key /\ getitem c key = inl (KeyError key)
  end.
Proof.
  unfold setitem.
  destruct (String.eqb_spec key "model") as [->|H1].
  { split; [ reflexivity | ]. intros k Hk. unfold getitem.
    destruct (String.eqb_spec k "model"); [ congruence | reflexivity ]. }
  destruct (String.eqb_spec key "max_tokens") as [->|H2].
  { split; [ reflexivity | ]. intros k Hk. unfold getitem.
    destruct (String.eqb_spec k "model"); [ reflexivity | ].
    destruct (String.eqb_spec k "max_tokens"); [ congruence | reflexivity ]. }
  destruct (String.eqb_spec key "temperature") as [->|H3].
  { split; [ reflexivity | ]. intros k Hk. unfold getitem.
    destruct (String.eqb_spec k "model"); [ reflexivity | ].
    destruct (String.eqb_spec k "max_tokens"); [ reflexivity | ].
    destruct (String.eqb_spec k "temperature"); [ congruence | reflexivity ]. }
  destruct (String.eqb_spec key "system_prompt") as [->|H4].
  { split; [ reflexivity | ]. intros k Hk. unfold getitem.
    destruct (String.eqb_spec k "model"); [ reflexivity | ].
    destruct (String.eqb_spec k "max_tokens"); [ reflexivity | ].
    destruct (String.eqb_spec k "temperature"); [ reflexivity | ].
    destruct (String.eqb_spec k "system_prompt"); [ congruence | reflexivity ]. }
  split; [ reflexivity | ]. unfold getitem.
  apply String.eqb_neq in H1, H2, H3, H4. by rewrite H1, H2, H3, H4.
Qed.

(** X2. [to_dict] and [__getitem__] give the same view of a configuration:
    for every key, indexing the dict [to_dict] builds returns what
    [c[key]] returns, and raises [KeyError] on the same keys; and
    [from_dict] gives the configuration back. *)
Theorem to_dict_agrees_with_getitem (c : ModeConfiguration) (key : string) :
  subscript (to_dict c) key = getitem c key
  /\ from_dict (to_dict c) = inr c.
Proof.
  split; [ | by destruct c ].
  unfold to_dict, subscript, getitem.
  destruct (String.eqb_spec key "model") as [->|H1]; [ reflexivity | ].
  rewrite lookup_insert_ne by (intros E; subst key; contradiction).
  destruct (String.eqb_spec key "max_tokens") as [->|H2]; [ reflexivity | ].
  rewrite lookup_insert_ne by (intros E; subst key; contradiction).
  destruct (String.eqb_spec key "temperature") as [->|H3]; [ reflexivity | ].
  rewrite lookup_insert_ne by (intros E; subst key; contradiction).
  destruct (String.eqb_spec key "system_prompt") as [->|H4]; [ reflexivity | ].
  rewrite lookup_insert_ne by (intros E; subst key; contradiction). by rewrite lookup_empty.
Qed.

(** X3. [from_dict] returns a configuration exactly on a dict that has the
    keys ["model"], ["max_tokens"] and ["temperature"]; the three
    attributes are then the values of these keys, whatever they are, and
    the system prompt is the value of ["system_prompt"], or [None] when the
    key is absent. Other keys are ignored. *)
Theorem from_dict_requires_three_keys (data : pyval) (c : ModeConfiguration) :
  from_dict data = inr c
  <-> exists d,
        data = PDict d
        /\ d !! "model" = Some (model c)
        /\ d !! "max_tokens" = Some (max_tokens c)
        /\ d !! "temperature" = Some (temperature c)
        /\ system_prompt c = default PNone (d !! "system_prompt").
Proof.
  split.
  - unfold from_dict. destruct data; try discriminate. cbn.
    destruct (d !! "model") as [m|] eqn:Hm; [ | discriminate ].
    destruct (d !! "max_tokens") as [k|] eqn:Hk; [ | discriminate ].
    destruct (d !! "temperature") as [t|] eqn:Ht; [ | discriminate ].
    intros [= <-]. exists d. by repeat split.
  - intros (d & -> & Hm & Hk & Ht & Hp). unfold from_dict. cbn.
    rewrite Hm, Hk, Ht, <- Hp. by destruct c.
Qed.

(* ===================================================================== *)
(** * Further properties of the settings commands *)
(* ===================================================================== *)

Lemma str_take_all (n : nat) (s : string) :
  String.length s <= n -> str_take n s = s.
Proof.
  revert s; induction n as [|n IH]; intros [|a s] Hlen; cbn in *;
    try reflexivity; try lia.
  f_equal. apply IH. lia.
Qed.

Section Settings.

Variable py_int : string -> option Z.
Variable py_float : string -> option spec_float.

(** X4. Setting the token limit from the text [value] never raises, and
    - either [int] returns a number above 0: then it is stored as the
      limit, nothing else of the object changes and the success message is
      printed;
    - or not: then the object is exactly as before and an error message
      is printed (not positive, or not an integer). *)
Theorem tokens_set_iff_positive (w : World) (value : string) :
  let r := adjust_settings py_int py_float "max_tokens" value w in
  r.1 = inr tt
  /\ ((exists n,
         py_int value = Some n /\ (0 < n)%Z
         /\ self r.2
            = with_settings (self w)
                {| model := model (settings (self w));
                   max_tokens := PInt n;
                   temperature := temperature (settings (self w));
                   system_prompt := system_prompt (settings (self w)) |}
         /\ stdout r.2 = (stdout w ++ [TokensSet n])%list)
      \/ ((forall n, py_int value = Some n -> (n <= 0)%Z)
          /\ self r.2 = self w
          /\ (stdout r.2 = (stdout w ++ [TokensNotPositive])%list
              \/ stdout r.2 = (stdout w ++ [TokensInvalid])%list))).
Proof.
  cbn zeta.
  unfold adjust_settings, try_catch, bind, int_of; cbn.
  destruct (py_int value) as [n|] eqn:Hn; cbn.
  - destruct (0 <? n)%Z eqn:Hpos; cbn; split; auto.
    + left. exists n. apply Z.ltb_lt in Hpos. by repeat split.
    + right. apply Z.ltb_ge in Hpos.
      split; [ by intros n' [= <-] | ].
      split; [ destruct w as [[]]; reflexivity | auto ].
  - split; auto. right. split; [ discriminate | ].
    split; [ destruct w as [[]]; reflexivity | auto ].
Qed.


(** X6. In every state of a session, setting the system prompt to a text
    that is not empty raises nothing and leaves the same text, cut to its
    first 1000 characters, as [settings.system_prompt] and as the content
    of the first element of the history; a text of at most 1000 characters
    is stored whole. *)
Theorem prompt_change_syncs_history (w : World) (value : string) :
  reachable py_int py_float (self w) ->
  value <> "" ->
  let r := adjust_settings py_int py_float "system_prompt" value w in
  r.1 = inr tt
  /\ system_prompt (settings (self r.2)) = PStr (str_take 1000 value)
  /\ head_content (self r.2) = Some (system_prompt (settings (self r.2)))
  /\ (String.length value <= 1000 -> str_take 1000 value = value)
  /\ head_role (self r.2) = head_role (self w)
  /\ stats (self r.2) = stats (self w).
Proof.
  intros Hreach Hne.
  destruct (head_ok_dict _ (reachable_head_ok _ _ _ Hreach))
    as (d & rest & E & _).
  apply String.eqb_neq in Hne.
  pose proof (str_take_all 1000 value) as Hshort.
  cbn zeta. unfold adjust_settings. cbn [String.eqb Ascii.eqb Bool.eqb].
  rewrite Hne. cbn [negb]. unfold bind, set_head_content.
  destruct (1000 <? String.length value)%nat eqn:Hlong.
  - cbn -[str_take]. rewrite E. cbn -[str_take].
    unfold head_content, head_role. cbn -[str_take]. rewrite E.
    repeat split; try assumption.
    + apply lookup_insert_eq.
    + by rewrite lookup_insert_ne.
  - apply Nat.ltb_ge in Hlong. cbn -[str_take]. rewrite E. cbn -[str_take].
    unfold head_content, head_role. cbn -[str_take]. rewrite E.
    rewrite (Hshort Hlong).
    repeat split; try assumption.
    + apply lookup_insert_eq.
    + by rewrite lookup_insert_ne.
Qed.

(** X7. A call that names no setting of the four, or that gives the
    empty text as system prompt, raises nothing, leaves the object exactly
    as it was and prints one error message. *)
Theorem rejected_setting_changes_nothing (w : World) (setting value : string) :
  (setting = "system_prompt" /\ value = "")
  \/ (setting ∉ ["model"; "max_tokens"; "temperature"; "system_prompt"]) ->
  let r := adjust_settings py_int py_float setting value w in
  r.1 = inr tt
  /\ self r.2 = self w
  /\ stdout r.2
     = (stdout w ++ [if String.eqb setting "system_prompt" then PromptEmpty
                     else UnknownSetting setting])%list.
Proof.
  intros [[-> ->]|Hout]; cbn zeta.
  - by repeat split.
  - unfold adjust_settings.
    repeat rewrite not_elem_of_cons in Hout.
    destruct Hout as (H1 & H2 & H3 & H4 & _).
    apply String.eqb_neq in H1, H2, H3, H4. rewrite H1, H2, H3, H4.
    by repeat split.
Qed.

(** X8. [adjust_settings] validates before it stores: from a valid
    configuration every call, whatever the setting and the value, leaves
    a valid configuration. *)
Theorem adjust_settings_preserves_validity (w : World)
    (setting value : string) :
  valid_config (available_models (self w)) (settings (self w)) = true ->
  let b := self (adjust_settings py_int py_float setting value w).2 in
  valid_config (available_models b) (settings b) = true.
Proof. intros H. by apply (adjust_settings_valid py_int py_float). Qed.


End Settings.

Ltac not_in_list :=
  repeat (apply not_elem_of_cons; split; [ discriminate | ]);
  apply not_elem_of_nil.

Lemma prompt_change_syncs_history_witness :
  let r := adjust_settings sample_int sample_float "system_prompt"
             "Answer in verse." (sample_world fresh_bot [] ∅) in
  system_prompt (settings (self r.2)) = PStr "Answer in verse."
  /\ head_content (self r.2) = Some (PStr "Answer in verse.").
Proof.
  pose proof (prompt_change_syncs_history sample_int sample_float
                (sample_world fresh_bot [] ∅) "Answer in verse."
                (reachable_init _ _ _ _ _)
                ltac:(discriminate)) as H.
  cbn zeta in H |- *. destruct H as (_ & Hs & Hc & Hshort & _).
  rewrite Hc, Hs. rewrite Hshort by (vm_compute; lia). by split.
Defined.

Lemma rejected_setting_changes_nothing_witness :
  let r := adjust_settings sample_int sample_float "top_p" "0.9"
             (sample_world busy_bot [] ∅) in
  self r.2 = busy_bot /\ stdout r.2 = [UnknownSetting "top_p"].
Proof.
  pose proof (rejected_setting_changes_nothing sample_int sample_float
                (sample_world busy_bot [] ∅) "top_p" "0.9"
                ltac:(right; not_in_list)) as H.
  cbn zeta in H |- *. destruct H as (_ & Hs & Ho). by split.
Defined.

Lemma adjust_settings_preserves_validity_witness :
  let b := self (adjust_settings sample_int sample_float "max_tokens" "-5"
                   (sample_world fresh_bot [] ∅)).2 in
  valid_config (available_models b) (settings b) = true.
Proof.
  apply (adjust_settings_preserves_validity sample_int sample_float
           (sample_world fresh_bot [] ∅) "max_tokens" "-5").
  vm_compute. reflexivity.
Defined.


(* ===================================================================== *)
(** * Further properties of an exchange *)
(* ===================================================================== *)

Lemma chat_success_counts_witness :
  let r := chat client_up "hi" (sample_world fresh_bot [] ∅) in
  r.1 = inr (Text "hello")
  /\ total_messages (stats (self r.2)) = 1%Z
  /\ total_tokens_used (stats (self r.2)) = 7%Z.
Proof.
  pose proof (chat_success_counts client_up (sample_world fresh_bot [] ∅)
                "hi" {| output_text := "hello"; usage := Some 7%Z |}
                eq_refl) as H.
  cbn zeta in H |- *. destruct H as (H1 & _ & H3 & H4). by repeat split.
Defined.

Section Exchange.

Variable client : Request -> exn + Response.

(** X11. Whatever the remote service does, [chat] puts the user message
    at the end of the history before anything else, and at most one
    message follows it; and [chat] lets no exception of the [Exception]
    family out: what it raises, if anything, is what the call raised and is
    outside that family. *)
Theorem chat_appends_user_message_first (w : World) (text : string) :
  let r := chat client text w in
  (exists tail,
     conversation_history (self r.2)
     = (conversation_history (self w)
        ++ message "user" (PStr text) :: tail)%list
     /\ length tail <= 1)
  /\ (forall e, r.1 = inl e ->
        is_Exception e = false
        /\ client (chat_request (self w) text) = inl e).
Proof.
  cbn zeta.
  unfold chat, try_except, try_catch, bind, lift, append_history,
    modify_stats; cbn.
  fold (chat_request (self w) text).
  destruct (client (chat_request (self w) text)) as [e|response]; cbn.
  - destruct (is_Exception e) eqn:He; cbn.
    + split; [ exists []; split; [ reflexivity | cbn; lia ] | discriminate ].
    + split; [ exists []; split; [ reflexivity | cbn; lia ] | ].
      by intros e' [= <-].
  - destruct (usage response); cbn.
    all: split; [ eexists [_]; split; [ by rewrite <- app_assoc | cbn; lia ]
                | discriminate ].
Qed.

End Exchange.

(* ===================================================================== *)
(** * Further properties of saving and loading *)
(* ===================================================================== *)

(** X12. [save_conversation] never raises and never changes the session
    or the pending input. The destination is the given name, or
    [conversation_<date>_<time>.json] from the clock when none is given.
    When the destination can be written, the file then holds the document
    built from the session and the success message is printed; when it
    cannot, the files are as before and the failure is printed. *)
Theorem save_conversation_effect (w : World) (filename : option string) :
  let r := save_conversation filename w in
  let name :=
    match filename with
    | Some f => f
    | None =>
        "conversation_" ++ strftime_compact (clock w (ticks w)) ++ ".json"
    end in
  let timestamp :=
    clock w (match filename with Some _ => ticks w | None => S (ticks w) end)
  in
  r.1 = inr tt /\ self r.2 = self w /\ stdin r.2 = stdin w
  /\ if bool_decide (name ∈ readonly w)
     then fs r.2 = fs w /\ stdout r.2 = (stdout w ++ [SaveFailed OSError])%list
     else fs r.2 = <[name := Json (conversation_data (self w) timestamp)]>
                     (fs w)
          /\ stdout r.2 = (stdout w ++ [Saved name])%list.
Proof.
  cbn zeta.
  destruct filename as [f|];
    unfold save_conversation, try_except, try_catch, bind, write_json, now;
    cbn; case_bool_decide; cbn; by repeat split.
Qed.


(** X15. When the file holds a document whose settings parse and whose
    conversation is a list, and the operator answers [yes] (in any case,
    with any spaces around) to the question about the settings,
    [load_conversation] makes the configuration of the file the active
    one, as it is in the file, and the history is the new first element
    followed by the list of the file. *)
Theorem load_confirmed_replaces_configuration (w : World) (filename : string)
    (data settings_data : pyval) (setting : ModeConfiguration)
    (items : list pyval) (line : string) (rest : list string) :
  fs w !! filename = Some (Json data) ->
  subscript data "settings" = inr settings_data ->
  from_dict settings_data = inr setting ->
  subscript data "conversation" = inr (PList items) ->
  stdin w = line :: rest ->
  lower (strip line) = "yes" ->
  let r := load_conversation filename w in
  r.1 = inr tt
  /\ settings (self r.2) = setting
  /\ conversation_history (self r.2)
     = message "system" (py_or (system_prompt setting) (PStr "")) :: items
  /\ stdin r.2 = rest
  /\ stdout r.2
     = (stdout w ++ [WarnOverwriteSettings; AskOverwriteSettings;
                     SettingsUpdated (to_dict setting); Loaded filename;
                     LoadedCount (length items)])%list.
Proof.
  intros Hfile Hsd Hfrom Hconv Hin Hyes. cbn zeta.
  rewrite load_conversation_unfold.
  rewrite (read_settings_decoded _ _ _ _ _ Hfile Hsd Hfrom).
  unfold try_except, try_catch, load_conversation_rest, bind, lift,
    extend_history, input, print, put_settings.
  rewrite Hconv. cbn. rewrite Hin. cbn -[lower strip].
  rewrite Hyes. cbn.
  repeat split. by rewrite <- !app_assoc.
Qed.

Lemma load_confirmed_replaces_configuration_witness :
  let r := load_conversation "chat.json"
             (sample_world busy_bot [" Yes"]
                {["chat.json" := Json sample_document]}) in
  model (settings (self r.2)) = PStr "gpt-4"
  /\ max_tokens (settings (self r.2)) = PInt 256.
Proof.
  pose proof (load_confirmed_replaces_configuration
                (sample_world busy_bot [" Yes"]
                   {["chat.json" := Json sample_document]})
                "chat.json" sample_document sample_settings_data
                {| model := PStr "gpt-4"; max_tokens := PInt 256;
                   temperature := PFloat float_two;
                   system_prompt := PStr "Answer in French." |}
                [message "user" (PStr "bonjour");
                 message "assistant" (PStr "salut")]
                " Yes" []
                eq_refl eq_refl eq_refl eq_refl eq_refl
                ltac:(vm_compute; reflexivity)) as H.
  cbn zeta in H |- *. destruct H as (_ & -> & _). by split.
Defined.

(** X16. When the input ends at the question about the settings, the
    history has already been replaced by the content of the file: the
    failure is reported, the configuration is the one that was active, and
    the previous conversation is gone. *)
Theorem load_at_end_of_input (w : World) (filename : string)
    (data settings_data : pyval) (setting : ModeConfiguration)
    (items : list pyval) :
  fs w !! filename = Some (Json data) ->
  subscript data "settings" = inr settings_data ->
  from_dict settings_data = inr setting ->
  subscript data "conversation" = inr (PList items) ->
  stdin w = [] ->
  let r := load_conversation filename w in
  r.1 = inr tt
  /\ settings (self r.2) = settings (self w)
  /\ conversation_history (self r.2)
     = message "system" (py_or (system_prompt setting) (PStr "")) :: items
  /\ stdout r.2
     = (stdout w ++ [WarnOverwriteSettings; AskOverwriteSettings;
                     LoadFailed EOFError])%list.
Proof.
  intros Hfile Hsd Hfrom Hconv Hin. cbn zeta.
  rewrite load_conversation_unfold.
  rewrite (read_settings_decoded _ _ _ _ _ Hfile Hsd Hfrom).
  unfold try_except, try_catch, load_conversation_rest, bind, lift,
    extend_history, input, print, put_settings.
  rewrite Hconv. cbn. rewrite Hin. cbn.
  repeat split. by rewrite <- !app_assoc.
Qed.

Lemma load_at_end_of_input_witness :
  let r := load_conversation "chat.json"
             (sample_world busy_bot []
                {["chat.json" := Json sample_document]}) in
  settings (self r.2) = default_config
  /\ length (conversation_history (self r.2)) = 3.
Proof.
  pose proof (load_at_end_of_input
                (sample_world busy_bot []
                   {["chat.json" := Json sample_document]})
                "chat.json" sample_document sample_settings_data
                {| model := PStr "gpt-4"; max_tokens := PInt 256;
                   temperature := PFloat float_two;
                   system_prompt := PStr "Answer in French." |}
                [message "user" (PStr "bonjour");
                 message "assistant" (PStr "salut")]
                eq_refl eq_refl eq_refl eq_refl eq_refl) as H.
  cbn zeta in H |- *. destruct H as (_ & -> & -> & _). by split.
Defined.

Lemma load_conversation_unreadable_witness :
  let r := load_conversation "missing.json" (sample_world busy_bot ["yes"] ∅)
  in self r.2 = busy_bot /\ stdout r.2 = [LoadFailed OSError].
Proof.
  pose proof (load_conversation_unreadable
                (sample_world busy_bot ["yes"] ∅) "missing.json" OSError
                eq_refl) as H.
  cbn zeta in H |- *. destruct H as (_ & Hs & _ & _ & Ho). by split.
Defined.

(* ===================================================================== *)
(** * Further properties of the dispatcher and of the loop *)
(* ===================================================================== *)

(** ** Stripped lines and their first word *)

Lemma lstrip_head (s : string) :
  lstrip s = "" \/ exists a r, lstrip s = String a r /\ isspace a = false.
Proof.
  induction s as [|a s IH]; [ by left | ]. cbn.
  destruct (isspace a) eqn:Ha; [ exact IH | right; eauto ].
Qed.

Lemma rstrip_head (a : ascii) (s : string) :
  isspace a = false -> exists r, rstrip (String a s) = String a r.
Proof. intros Ha. cbn. rewrite Ha. destruct (rstrip s); eauto. Qed.

Lemma rstrip_idem (s : string) : rstrip (rstrip s) = rstrip s.
Proof.
  induction s as [|a s IH]; [ reflexivity | ]. cbn.
  destruct (rstrip s) as [|b r] eqn:E.
  - destruct (isspace a) eqn:Ha; [ reflexivity | ]. cbn. by rewrite Ha.
  - cbn in *. rewrite IH. reflexivity.
Qed.

Lemma strip_head (s : string) :
  strip s = "" \/ exists a r, strip s = String a r /\ isspace a = false.
Proof.
  unfold strip. destruct (lstrip_head s) as [->|(a & r & -> & Ha)].
  - by left.
  - right. destruct (rstrip_head a r Ha) as [r' E]. eauto.
Qed.

Lemma strip_idem (s : string) : strip (strip s) = strip s.
Proof.
  destruct (strip_head s) as [E|(a & r & E & Ha)].
  - by rewrite E.
  - unfold strip at 1. rewrite E. cbn [lstrip]. rewrite Ha, <- E.
    unfold strip. apply rstrip_idem.
Qed.

Lemma split1_head (a : ascii) (r : string) :
  isspace a = false ->
  exists word more, split1 (String a r) = String a word :: more.
Proof.
  intros Ha. unfold split1. cbn [lstrip]. rewrite Ha.
  cbn [break_word]. rewrite Ha.
  destruct (break_word r) as [word rest].
  destruct (lstrip rest); eauto.
Qed.

Lemma lower_char_slash (a : ascii) :
  Ascii.eqb (lower_char a) "/" = Ascii.eqb a "/".
Proof.
  destruct a as [[] [] [] [] [] [] [] []]; vm_compute; reflexivity.
Qed.

(** The command of a stripped line starts with [/] exactly when the line
    does. *)
Lemma command_marker (line : string) :
  strip line <> "" ->
  exists token more,
    split1 (strip (strip line)) = token :: more
    /\ startswith "/" (lower token) = startswith "/" (strip line).
Proof.
  intros Hne. rewrite strip_idem.
  destruct (strip_head line) as [E|(a & r & E & Ha)]; [ congruence | ].
  rewrite E. destruct (split1_head a r Ha) as (word & more & ->).
  exists (String a word), more. split; [ reflexivity | ].
  unfold startswith. cbn [lower String.prefix].
  pose proof (lower_char_slash a) as Hs.
  assert (forall s, String.prefix "" s = true) as Hp by (by intros []).
  rewrite !Hp.
  destruct (ascii_dec "/"%char (lower_char a)) as [H1|H1];
    destruct (ascii_dec "/"%char a) as [H2|H2]; try reflexivity.
  - rewrite <- H1, Ascii.eqb_refl in Hs. symmetry in Hs.
    apply Ascii.eqb_eq in Hs. exfalso. apply H2. by symmetry.
  - subst a. exfalso. apply H1. reflexivity.
Qed.

Section Loop.

Variable py_int : string -> option Z.
Variable py_float : string -> option spec_float.

Lemma handle_command_plain (user_input token : string) (more : list string)
    (w : World) :
  split1 (strip user_input) = token :: more ->
  startswith "/" (lower token) = false ->
  handle_command py_int py_float user_input w = (inr false, w).
Proof. intros Ht Hs. unfold handle_command. by rewrite Ht, Hs. Qed.

Lemma handle_command_marked (user_input token : string) (more : list string)
    (w : World) :
  split1 (strip user_input) = token :: more ->
  startswith "/" (lower token) = true ->
  (handle_command py_int py_float user_input w).1 <> inr false.
Proof.
  intros Ht Hs. unfold handle_command. rewrite Ht, Hs. cbn [negb].
  unfold bind at 1.
  match goal with |- context [ (let (s, w') := ?m w in _) ] =>
    destruct (m w) as [[e|u] w'] end; cbn; discriminate.
Qed.

Lemma chat_frame (client : Request -> exn + Response) (text : string)
    (w1 w2 : World) :
  self w1 = self w2 ->
  (chat client text w1).1 = (chat client text w2).1
  /\ self (chat client text w1).2 = self (chat client text w2).2
  /\ stdin (chat client text w1).2 = stdin w1
  /\ stdout (chat client text w1).2 = stdout w1.
Proof.
  intros E.
  unfold chat, try_except, try_catch, bind, lift, append_history,
    modify_stats; cbn. rewrite E.
  destruct (client _) as [e|response]; cbn.
  - by destruct (is_Exception e).
  - by destruct (usage response).
Qed.

(** X17. A line that, once stripped, is not empty and does not start with
    [/] is sent to the remote service as it is: the iteration of the loop
    leaves the session as [chat] leaves it, prints the reply after the
    waiting notice, and goes on. *)
Theorem plain_text_goes_to_chat (client : Request -> exn + Response)
    (w : World) (line : string) (rest : list string) (response : reply) :
  stdin w = line :: rest ->
  strip line <> "" ->
  startswith "/" (strip line) = false ->
  (chat client (strip line) w).1 = inr response ->
  let r := run_turn py_int py_float client w in
  r.1 = inr true
  /\ self r.2 = self (chat client (strip line) w).2
  /\ stdin r.2 = rest
  /\ stdout r.2 = (stdout w ++ [AskLine; Thinking; Answer response])%list.
Proof.
  intros Hin Hne Hplain Hchat. cbn zeta.
  destruct (command_marker line Hne) as (token & more & Htok & Hmark).
  rewrite Hplain in Hmark. apply String.eqb_neq in Hne.
  unfold run_turn, try_catch, bind, input, print.
  cbn -[handle_command chat strip]. rewrite Hin.
  cbn -[handle_command chat strip]. rewrite Hne.
  rewrite (handle_command_plain _ _ _ _ Htok Hmark).
  cbn -[chat strip].
  match goal with |- context [ chat client (strip line) ?w1 ] =>
    destruct (chat_frame client (strip line) w1 w eq_refl)
      as (H1 & H2 & H3 & H4);
    destruct (chat client (strip line) w1) as [[e|resp] w2] eqn:Hc
  end; cbn in *.
  - rewrite Hchat in H1. discriminate.
  - rewrite Hchat in H1. injection H1 as ->.
    repeat split; try assumption. by rewrite H4, <- !app_assoc.
Qed.

(** X18. A line that, once stripped, starts with [/] never reaches the
    remote service: the iteration of the loop gives the same result and
    the same world whatever the service would answer. *)
Theorem command_line_never_calls_the_service
    (client client' : Request -> exn + Response) (w : World)
    (line : string) (rest : list string) :
  stdin w = line :: rest ->
  startswith "/" (strip line) = true ->
  run_turn py_int py_float client w = run_turn py_int py_float client' w.
Proof.
  intros Hin Hcmd.
  assert (strip line <> "") as Hne by (intros E; rewrite E in Hcmd; discriminate).
  destruct (command_marker line Hne) as (token & more & Htok & Hmark).
  rewrite Hcmd in Hmark. apply String.eqb_neq in Hne.
  unfold run_turn, try_catch, bind, input, print.
  cbn -[handle_command chat strip]. rewrite Hin.
  cbn -[handle_command chat strip]. rewrite Hne.
  match goal with |- context [ handle_command py_int py_float (strip line) ?w1 ] =>
    pose proof (handle_command_marked _ _ _ w1 Htok Hmark) as Hh;
    destruct (handle_command py_int py_float (strip line) w1)
      as [[e|[]] w2]
  end; cbn in Hh |- *; try reflexivity.
  by destruct Hh.
Qed.

End Loop.

Lemma plain_text_goes_to_chat_witness :
  let r := run_turn sample_int sample_float client_up
             (sample_world fresh_bot [" hi there "] ∅) in
  r.1 = inr true
  /\ stdout r.2 = [AskLine; Thinking; Answer (Text "hello")].
Proof.
  pose proof (plain_text_goes_to_chat sample_int sample_float client_up
                (sample_world fresh_bot [" hi there "] ∅)
                " hi there " [] (Text "hello") eq_refl
                ltac:(vm_compute; discriminate) eq_refl eq_refl) as H.
  cbn zeta in H |- *. destruct H as (H1 & _ & _ & H4). by split.
Defined.

Lemma command_line_never_calls_the_service_witness :
  run_turn sample_int sample_float client_up
    (sample_world fresh_bot ["/Tokens 500"] ∅)
  = run_turn sample_int sample_float client_down
      (sample_world fresh_bot ["/Tokens 500"] ∅).
Proof.
  apply (command_line_never_calls_the_service sample_int sample_float
           client_up client_down (sample_world fresh_bot ["/Tokens 500"] ∅)
           "/Tokens 500" []); reflexivity.
Defined.

Section Commands.

Variable py_int : string -> option Z.
Variable py_float : string -> option spec_float.

(** X19. A command that needs an argument and is given none ([/model],
    [/temp], [/tokens], [/prompt], [/load], in any case) is handled by
    asking for the argument: the message is printed, nothing else
    changes, and the input counts as a command. *)
Theorem command_without_argument_asks_for_it (w : World)
    (user_input token : string) :
  split1 (strip user_input) = [token] ->
  (lower token ∈ ["/model"; "/temp"; "/tokens"; "/prompt"; "/load"]) ->
  handle_command py_int py_float user_input w
  = (inr true,
     (print (if String.eqb (lower token) "/model" then NeedModelName
             else if String.eqb (lower token) "/temp" then NeedTemperature
             else if String.eqb (lower token) "/tokens" then NeedTokens
             else if String.eqb (lower token) "/prompt" then NeedPrompt
             else NeedFilename) w).2).
Proof.
  intros Ht Hc. unfold handle_command. rewrite Ht. cbn zeta.
  repeat (apply elem_of_cons in Hc as [->|Hc]; [ reflexivity | ]).
  by apply elem_of_nil in Hc.
Qed.

(** X20. An input whose first word starts with [/] and is none of the
    thirteen commands is reported as unknown, under its lower-case form;
    nothing else changes, and the input counts as a command. *)
Theorem unknown_command_reported (w : World) (user_input token : string)
    (more : list string) :
  split1 (strip user_input) = token :: more ->
  startswith "/" (lower token) = true ->
  (lower token ∉ ["/help"; "/clear"; "/stats"; "/settings"; "/models";
                  "/model"; "/temp"; "/tokens"; "/prompt"; "/save"; "/load";
                  "/quit"; "/exit"]) ->
  handle_command py_int py_float user_input w
  = (inr true, (print (UnknownCommand (lower token)) w).2).
Proof.
  intros Ht Hs Hc. unfold handle_command. rewrite Ht. cbn zeta.
  rewrite Hs. cbn [negb].
  repeat rewrite not_elem_of_cons in Hc.
  destruct Hc as (H1 & H2 & H3 & H4 & H5 & H6 & H7 & H8 & H9 & H10 & H11
                  & H12 & H13 & _).
  apply String.eqb_neq in H1, H2, H3, H4, H5, H6, H7, H8, H9, H10, H11,
    H12, H13.
  by rewrite H1, H2, H3, H4, H5, H6, H7, H8, H9, H10, H11, H12, H13.
Qed.

Lemma print_models_lines (current : pyval) (models : list string) (w : World) :
  let r := print_models current models w in
  r.1 = inr tt /\ self r.2 = self w /\ stdin r.2 = stdin w /\ fs r.2 = fs w
  /\ stdout r.2
     = (stdout w
        ++ ((fun m => ModelLine m (str_eq m current)) <$> models))%list.
Proof.
  cbn zeta. revert w. induction models as [|m models IH]; intros w.
  - cbn. by rewrite app_nil_r.
  - cbn [print_models]. unfold bind at 1. cbn [print].
    match goal with |- context [ print_models current models ?w1 ] =>
      destruct (IH w1) as (H1 & H2 & H3 & H4 & H5) end.
    cbn in *. repeat split; try assumption.
    by rewrite H5, <- app_assoc.
Qed.

(** X21. [/models] prints the header and then one line for every model
    of the list, in the order of the list, marking exactly the entries
    equal to the current model; nothing else changes. *)
Theorem models_command_lists_every_model (w : World)
    (user_input token : string) (more : list string) :
  split1 (strip user_input) = token :: more ->
  lower token = "/models" ->
  let r := handle_command py_int py_float user_input w in
  r.1 = inr true /\ self r.2 = self w
  /\ stdout r.2
     = (stdout w
        ++ ModelsHeader
           :: ((fun m => ModelLine m (str_eq m (model (settings (self w)))))
               <$> available_models (self w)))%list.
Proof.
  intros Ht Hc. cbn zeta. unfold handle_command. rewrite Ht. cbn zeta.
  rewrite Hc. cbn -[print_models]. unfold bind. cbn -[print_models].
  match goal with |- context [ print_models ?c ?ms ?w1 ] =>
    destruct (print_models_lines c ms w1) as (H1 & H2 & H3 & H4 & H5);
    destruct (print_models c ms w1) as [[e|[]] w2] end;
    cbn in *; try discriminate.
  repeat split; try assumption. by rewrite H5, <- app_assoc.
Qed.

(** X22. An iteration of the loop lets out neither an exception of the
    [Exception] family nor a keyboard interrupt: if it raises, it is the
    exit of [/quit] or [/exit], or an exit the service call itself raised. *)
Theorem run_turn_raises_only_exit (client : Request -> exn + Response)
    (w : World) (e : exn) :
  (run_turn py_int py_float client w).1 = inl e ->
  exists code, e = SystemExit code.
Proof.
  unfold run_turn, try_catch.
  match goal with |- context [ (let (s, w') := ?m w in _) ] =>
    destruct (m w) as [[e'|a] w'] end; [ | discriminate ].
  destruct e'; cbn; try discriminate.
  intros [= <-]. eauto.
Qed.

(** X23. At the end of the input the loop does not stop: every iteration
    prints the prompt and the failure and goes on, and the session is
    untouched, for as many iterations as are run. *)
Theorem run_at_end_of_input (client : Request -> exn + Response)
    (fuel : nat) (w : World) :
  stdin w = [] ->
  let r := run py_int py_float client fuel w in
  r.1 = inr tt /\ self r.2 = self w /\ stdin r.2 = []
  /\ stdout r.2
     = (stdout w
        ++ concat (replicate fuel [AskLine; Failure EOFError]))%list.
Proof.
  cbn zeta. revert w. induction fuel as [|fuel IH]; intros w Hin.
  - cbn. by rewrite app_nil_r.
  - cbn [run]. unfold bind.
    assert (run_turn py_int py_float client w
            = (inr true,
               (print (Failure EOFError) (print AskLine w).2).2)) as ->.
    { unfold run_turn, try_catch, bind, input, print. cbn. by rewrite Hin. }
    cbn beta iota.
    destruct (IH (print (Failure EOFError) (print AskLine w).2).2 Hin)
      as (H1 & H2 & H3 & H4).
    repeat split; try assumption.
    rewrite H4. cbn. by rewrite <- !app_assoc.
Qed.

End Commands.

Lemma command_without_argument_asks_for_it_witness :
  handle_command sample_int sample_float " /PROMPT  "
    (sample_world busy_bot [] ∅)
  = (inr true, (print NeedPrompt (sample_world busy_bot [] ∅)).2).
Proof.
  apply (command_without_argument_asks_for_it sample_int sample_float
           (sample_world busy_bot [] ∅) " /PROMPT  " "/PROMPT");
    [ reflexivity | vm_compute; set_solver ].
Defined.

Lemma unknown_command_reported_witness :
  handle_command sample_int sample_float "/Undo last"
    (sample_world busy_bot [] ∅)
  = (inr true, (print (UnknownCommand "/undo") (sample_world busy_bot [] ∅)).2).
Proof.
  apply (unknown_command_reported sample_int sample_float
           (sample_world busy_bot [] ∅) "/Undo last" "/Undo" ["last"]);
    [ reflexivity | reflexivity | vm_compute; not_in_list ].
Defined.

Lemma models_command_lists_every_model_witness :
  stdout (handle_command sample_int sample_float "/models"
            (sample_world fresh_bot [] ∅)).2
  = [ModelsHeader; ModelLine "gpt-4" false; ModelLine "gpt-4.1" false;
     ModelLine "gpt-4o" true].
Proof.
  apply (models_command_lists_every_model sample_int sample_float
           (sample_world fresh_bot [] ∅) "/models" "/models" []);
    reflexivity.
Defined.

Lemma run_turn_raises_only_exit_witness :
  (run_turn sample_int sample_float client_up
     (sample_world fresh_bot ["/quit"] ∅)).1 = inl (SystemExit 0)
  /\ exists code, SystemExit 0 = SystemExit code.
Proof.
  split; [ reflexivity | ].
  apply (run_turn_raises_only_exit sample_int sample_float client_up
           (sample_world fresh_bot ["/quit"] ∅) (SystemExit 0)).
  reflexivity.
Defined.

Lemma run_at_end_of_input_witness :
  stdout (run sample_int sample_float client_up 3
            (sample_world fresh_bot [] ∅)).2
  = [AskLine; Failure EOFError; AskLine; Failure EOFError;
     AskLine; Failure EOFError].
Proof.
  apply (run_at_end_of_input sample_int sample_float client_up 3
           (sample_world fresh_bot [] ∅)).
  reflexivity.
Defined.

(** ** What the loop never changes *)

(** A property of the object that does not depend on the history is kept
    by every update of the history. *)
Section HistoryFrame.

Variable P : ChatBot -> Prop.
Hypothesis P_history : forall b h, P b -> P (with_history b h).

Lemma frame_put_history h : keeps (pres_rel P) (put_history h).
Proof. intros w H. by apply P_history. Qed.

Lemma frame_append_history x : keeps (pres_rel P) (append_history x).
Proof. intros w H. by apply P_history. Qed.

Lemma frame_extend_history v : keeps (pres_rel P) (extend_history v).
Proof.
  intros w H. unfold extend_history, bind, lift; cbn.
  destruct (iterate v); cbn; [ exact H | by apply P_history ].
Qed.

Lemma frame_set_head_content v : keeps (pres_rel P) (set_head_content v).
Proof.
  intros w H. unfold set_head_content, bind; cbn.
  destruct (conversation_history (self w)) as [|[] ?]; cbn;
    first [ exact H | by apply P_history ].
Qed.

Lemma frame_clear_history : keeps (pres_rel P) clear_history.
Proof. intros w H. by apply P_history. Qed.

Lemma frame_save_conversation filename :
  keeps (pres_rel P) (save_conversation filename).
Proof. unfold save_conversation, try_except. keeps_auto. Qed.

Lemma frame_show_stats : keeps (pres_rel P) show_stats.
Proof. unfold show_stats. keeps_auto. Qed.

Lemma frame_show_settings : keeps (pres_rel P) show_settings.
Proof. unfold show_settings. keeps_auto. Qed.

Lemma frame_print_models current models :
  keeps (pres_rel P) (print_models current models).
Proof. induction models; cbn; keeps_auto. Qed.

End HistoryFrame.

Section Counters.

Variable py_int : string -> option Z.
Variable py_float : string -> option spec_float.
Variable client : Request -> exn + Response.

Lemma steady_run_turn models start n :
  keeps (pres_rel (steady models start n)) (run_turn py_int py_float client).
Proof.
  assert (forall b h, steady models start n b ->
                      steady models start n (with_history b h)) as Hh
    by (by intros b h H).
  assert (forall c, keeps (pres_rel (steady models start n))
                      (put_settings c)) as Hs
    by (by intros c w H).
  assert (forall key v, keeps (pres_rel (steady models start n))
                          (settings_setitem key v)) as Hsi.
  { intros key v w H. unfold settings_setitem, bind, lift; cbn.
    by destruct (setitem (settings (self w)) key v). }
  pose proof (frame_put_history _ Hh) as F1.
  pose proof (frame_append_history _ Hh) as F2.
  pose proof (frame_extend_history _ Hh) as F3.
  pose proof (frame_set_head_content _ Hh) as F4.
  pose proof (frame_clear_history _ Hh) as F5.
  pose proof (frame_save_conversation (steady models start n)) as F6.
  pose proof (frame_show_stats (steady models start n)) as F7.
  pose proof (frame_show_settings (steady models start n)) as F8.
  pose proof (frame_print_models (steady models start n)) as F9.
  assert (forall f, (forall s, session_start (f s) = session_start s
                               /\ (total_messages s <= total_messages (f s))%Z) ->
            keeps (pres_rel (steady models start n)) (modify_stats f)) as Hm.
  { intros f Hf w (H1 & H2 & H3). destruct (Hf (stats (self w))) as [E L].
    repeat split; cbn; [ exact H1 | congruence | lia ]. }
  unfold run_turn, handle_command, chat, adjust_settings, load_conversation,
    load_conversation_rest, try_except, int_of, float_of.
  keeps_auto.
  all: apply Hm; intros s; cbn; split; [ reflexivity | lia ].
Qed.

(** X24. However long the loop runs and whatever is typed, loaded or
    answered, the model list of the session and the start time in its
    stats never change, and the number of messages in its stats never
    goes down. *)
Theorem run_keeps_models_and_session_start (fuel : nat) (w : World) :
  let r := run py_int py_float client fuel w in
  available_models (self r.2) = available_models (self w)
  /\ session_start (stats (self r.2)) = session_start (stats (self w))
  /\ (total_messages (stats (self w)) <= total_messages (stats (self r.2)))%Z.
Proof.
  cbn zeta.
  assert (keeps (pres_rel (steady (available_models (self w))
                             (session_start (stats (self w)))
                             (total_messages (stats (self w)))))
            (run py_int py_float client fuel)) as H.
  { clear. generalize (available_models (self w))
             (session_start (stats (self w)))
             (total_messages (stats (self w))). intros models start n.
    induction fuel as [|fuel IH]; cbn [run]; keeps_auto.
    apply steady_run_turn. }
  apply H. repeat split. lia.
Qed.

End Counters.

Section ValidCommands.

Variable py_int : string -> option Z.
Variable py_float : string -> option spec_float.

(** X25. Every command except [/load] keeps a valid configuration valid,
    whatever its argument, and whether it returns or raises. *)
Theorem commands_other_than_load_keep_validity (w : World)
    (user_input token : string) (more : list string) :
  split1 (strip user_input) = token :: more ->
  lower token <> "/load" ->
  valid_config (available_models (self w)) (settings (self w)) = true ->
  let b := self (handle_command py_int py_float user_input w).2 in
  valid_config (available_models b) (settings b) = true.
Proof.
  intros Ht Hload Hvalid. cbn zeta.
  assert (forall b h, config_ok b -> config_ok (with_history b h)) as Hh
    by (by intros b h H).
  pose proof (frame_clear_history _ Hh) as F1.
  pose proof (frame_save_conversation config_ok) as F2.
  pose proof (frame_show_stats config_ok) as F3.
  pose proof (frame_show_settings config_ok) as F4.
  pose proof (frame_print_models config_ok) as F5.
  pose proof (adjust_settings_valid py_int py_float) as F6.
  unfold preserves in F6.
  apply String.eqb_neq in Hload.
  unfold handle_command. rewrite Ht. cbn zeta. rewrite Hload.
  revert w Hvalid.
  match goal with
  | |- forall w, _ -> valid_config _ (settings (self (?m w).2)) = true =>
      change (keeps (pres_rel config_ok) m)
  end.
  keeps_auto.
Qed.

End ValidCommands.

Lemma commands_other_than_load_keep_validity_witness :
  let b := self (handle_command sample_int sample_float "/temp 3"
                   (sample_world fresh_bot [] ∅)).2 in
  valid_config (available_models b) (settings b) = true.
Proof.
  apply (commands_other_than_load_keep_validity sample_int sample_float
           (sample_world fresh_bot [] ∅) "/temp 3" "/temp" ["3"]);
    [ reflexivity | vm_compute; discriminate | vm_compute; reflexivity ].
Defined.

(* ===================================================================== *)
(** * Properties of the startup code *)
(* ===================================================================== *)

(** X26. [load_models_from_json] never raises. It returns the content of
    [models.json] when that file exists and holds a JSON list, even an
    empty one, and the built-in list of three models in every other case:
    no file, a file that is not JSON, a JSON document that is not a
    list. *)
Theorem load_models_from_json_result (files : gmap string file) :
  load_models_from_json files
  = match files !! "models.json" with
    | Some (Json (PList l)) => (inr l, [ModelsLoaded (length l)])
    | Some (Json _) => (inr fallback_models, [ModelsBadFormat])
    | Some Garbled =>
        (inr fallback_models, [ModelsFailed JSONDecodeError])
    | None => (inr fallback_models, [ModelsNotFound])
    end.
Proof.
  unfold load_models_from_json.
  destruct (files !! "models.json") as [[|[]]|]; reflexivity.
Qed.

Lemma wbind_inr {A B : Type} (m : W A) (k : A -> W B) (b : B)
    (out : list notice) :
  wbind m k = (inr b, out) ->
  exists a o1 o2, m = (inr a, o1) /\ k a = (inr b, o2)
                  /\ out = (o1 ++ o2)%list.
Proof.
  unfold wbind. destruct m as [[e|a] o1]; [ discriminate | ].
  destruct (k a) as [r o2] eqn:Hk. intros [= -> <-].
  exists a, o1, o2. by repeat split.
Qed.

Lemma wbind_inl {A B : Type} (m : W A) (k : A -> W B) (e : exn)
    (out : list notice) :
  wbind m k = (inl e, out) ->
  (exists o, m = (inl e, o))
  \/ (exists a o1 o2, m = (inr a, o1) /\ k a = (inl e, o2)).
Proof.
  unfold wbind. destruct m as [[e'|a] o1].
  - intros [= -> _]. left. eauto.
  - destruct (k a) as [r o2] eqn:Hk. intros [= -> _]. right. eauto.
Qed.

Lemma get_environment_variable_returns (env : gmap string string)
    (var_name : string) (d : string) (show_warning : bool) :
  get_environment_variable env var_name (Some d) show_warning
  = (inr (Some (default d (env !! var_name))), []).
Proof. unfold get_environment_variable. by destruct (env !! var_name). Qed.

Lemma existsb_str_eq (m : string) (names : list string) :
  existsb (str_eq m) (PStr <$> names) = true -> m ∈ names.
Proof.
  induction names as [|x names IH]; cbn; [ discriminate | ].
  destruct (String.eqb_spec m x) as [->|_]; cbn.
  - intros _. apply elem_of_cons. by left.
  - intros H. apply elem_of_cons. right. apply IH, H.
Qed.

Section StartupProperties.

Variable py_int : string -> option Z.
Variable py_float : string -> option spec_float.
Variable default_system_prompt : string.

(** X27. A configuration that [load_model_configuration] returns is
    valid, whatever the environment holds: the model is in the list, the
    token limit is above 0, the temperature is between 0 and 2 and the
    prompt has at most 1000 characters. A session therefore starts with a
    valid configuration. *)
Theorem load_model_configuration_valid (env : gmap string string)
    (names : list string) (c : ModeConfiguration) (out : list notice)
    (start : datetime) :
  load_model_configuration py_int py_float default_system_prompt env
    (PStr <$> names) = (inr c, out) ->
  valid_config names c = true
  /\ config_ok (ChatBot_init names c start).
Proof.
  intros H.
  assert (valid_config names c = true) as Hv; [ | by split ].
  unfold load_model_configuration in H.
  apply wbind_inr in H as (model_name & o1 & o1' & _ & H & _).
  apply wbind_inr in H as ([] & o2 & o2' & Hmodel & H & _).
  apply wbind_inr in H as (tokens_text & o3 & o3' & _ & H & _).
  apply wbind_inr in H as ([] & o4 & o4' & Htok & H & _).
  apply wbind_inr in H as (temp_text & o5 & o5' & _ & H & _).
  apply wbind_inr in H as ([] & o6 & o6' & Htemp & H & _).
  apply wbind_inr in H as (prompt & o7 & o7' & _ & H & _).
  apply wbind_inr in H as (prompt' & o8 & o8' & Hprompt & H & _).
  apply wbind_inr in H as (tokens & o9 & o9' & Htokens & H & _).
  apply wbind_inr in H as (temp & o10 & o10' & Htemperature & H & _).
  injection H as <- _. unfold wret in *.
  unfold valid_config. cbn [model max_tokens temperature system_prompt].
  apply andb_true_intro; split;
    [ apply andb_true_intro; split; [ apply andb_true_intro; split | ] | ].
  - destruct model_name as [m|]; cbn in Hmodel.
    + destruct (existsb (str_eq m) (PStr <$> names)) eqn:E; cbn in Hmodel.
      * apply bool_decide_eq_true_2, existsb_str_eq, E.
      * unfold wbind in Hmodel. destruct (join_names _); discriminate.
    + unfold wbind in Hmodel. destruct (join_names _); discriminate.
  - destruct (nonempty tokens_text).
    + unfold wint in *.
      destruct (isdigit (default "" tokens_text)); cbn in Htok;
        [ | discriminate ].
      destruct (py_int (default "" tokens_text)) as [z|];
        [ | discriminate ].
      injection Htokens as <- _. cbn in Htok.
      destruct (z <=? 0)%Z eqn:Hz; [ discriminate | ].
      apply Z.ltb_lt. apply Z.leb_gt in Hz. exact Hz.
    + injection Htokens as <- _. reflexivity.
  - destruct (nonempty temp_text).
    + unfold wfloat in *.
      destruct (isdigit (remove_first_dot (default "" temp_text)));
        cbn in Htemp; [ | discriminate ].
      destruct (py_float (default "" temp_text)) as [f|];
        [ | discriminate ].
      injection Htemperature as <- _. cbn -[temp_in_range] in Htemp.
      destruct (temp_in_range f); [ reflexivity | discriminate ].
    + injection Htemperature as <- _. reflexivity.
  - destruct (nonempty prompt) eqn:Hne; cbn [negb] in Hprompt.
    + destruct (1000 <? String.length (default "" prompt))%nat eqn:Hlong.
      * pose proof (str_take_length 1000 (default "" prompt)) as Hcut.
        set (cut := str_take 1000 (default "" prompt)) in *. clearbody cut.
        unfold wbind, notify in Hprompt. injection Hprompt as <- _.
        cbn -[Nat.leb]. apply Nat.leb_le. lia.
      * injection Hprompt as <- _.
        destruct prompt as [p|]; [ | reflexivity ].
        apply Nat.leb_le. apply Nat.ltb_ge in Hlong. exact Hlong.
    + unfold wbind, notify in Hprompt. injection Hprompt as <- _.
      destruct prompt as [[|a p]|]; try reflexivity. discriminate.
Qed.

(** X28. When [load_model_configuration] does not return, it exits with
    code 1, or it raises the [ValueError] of a number that passed the
    digit test but cannot be converted, or the [TypeError] of a model list
    with an item that is not a string; and with a list of strings the
    last case does not occur. *)
Theorem load_model_configuration_failures (env : gmap string string)
    (models : list pyval) (e : exn) (out : list notice) :
  load_model_configuration py_int py_float default_system_prompt env models
  = (inl e, out) ->
  e = SystemExit 1 \/ e = ValueError
  \/ (e = TypeError /\ forall names, models <> PStr <$> names).
Proof.
  intros H.
  assert (forall names, join_names (PStr <$> names) = inr names) as Hjoin.
  { induction names as [|x names IH]; cbn; [ reflexivity | ].
    fold (fmap PStr names). by rewrite IH. }
  assert (forall e', join_names models = inl e' ->
            e' = TypeError /\ forall names, models <> PStr <$> names) as Hbad.
  { intros e' Hj. split.
    - clear Hjoin H. induction models as [|[] ms IH]; cbn in Hj;
        try (by injection Hj as <-); try discriminate.
      destruct (join_names ms); [ by apply IH | discriminate ].
    - intros names ->. rewrite Hjoin in Hj. discriminate. }
  unfold load_model_configuration in H.
  apply wbind_inl in H as [(o & H)|(model_name & o1 & o1' & _ & H)];
    [ by rewrite get_environment_variable_returns in H | ].
  apply wbind_inl in H as [(o & H)|([] & o2 & o2' & _ & H)].
  { destruct (negb _); [ | discriminate ].
    unfold wbind, notify, wraise, wret in H.
    destruct (join_names models) as [e'|names] eqn:Hj;
      injection H as <- _; [ right; right; by apply Hbad | by left ]. }
  apply wbind_inl in H as [(o & H)|(tokens_text & o3 & o3' & _ & H)];
    [ by rewrite get_environment_variable_returns in H | ].
  apply wbind_inl in H as [(o & H)|([] & o4 & o4' & _ & H)].
  { destruct (nonempty tokens_text); [ | discriminate ].
    unfold wbind, notify, wraise, wret, wint in H.
    destruct (isdigit _); cbn in H; [ | injection H as <- _; by left ].
    destruct (py_int _) as [z|]; cbn in H;
      [ | injection H as <- _; right; by left ].
    destruct (z <=? 0)%Z; cbn in H;
      [ injection H as <- _; by left | discriminate ]. }
  apply wbind_inl in H as [(o & H)|(temp_text & o5 & o5' & _ & H)];
    [ by rewrite get_environment_variable_returns in H | ].
  apply wbind_inl in H as [(o & H)|([] & o6 & o6' & _ & H)].
  { destruct (nonempty temp_text); [ | discriminate ].
    unfold wbind, notify, wraise, wret, wfloat in H.
    destruct (isdigit _); cbn -[temp_in_range] in H;
      [ | injection H as <- _; by left ].
    destruct (py_float _) as [f|]; cbn -[temp_in_range] in H;
      [ | injection H as <- _; right; by left ].
    destruct (temp_in_range f); cbn in H;
      [ discriminate | injection H as <- _; by left ]. }
  apply wbind_inl in H as [(o & H)|(prompt & o7 & o7' & _ & H)];
    [ by rewrite get_environment_variable_returns in H | ].
  apply wbind_inl in H as [(o & H)|(prompt' & o8 & o8' & _ & H)].
  { destruct (negb (nonempty prompt)); [ discriminate | ].
    destruct (1000 <? _)%nat; discriminate. }
  apply wbind_inl in H as [(o & H)|(tokens & o9 & o9' & _ & H)].
  { destruct (nonempty tokens_text); [ | discriminate ].
    unfold wint in H. destruct (py_int _); [ discriminate | ].
    injection H as <- _. right; by left. }
  apply wbind_inl in H as [(o & H)|(temp & o10 & o10' & _ & H)].
  { destruct (nonempty temp_text); [ | discriminate ].
    unfold wfloat in H. destruct (py_float _); [ discriminate | ].
    injection H as <- _. right; by left. }
  discriminate.
Qed.

(** X29. An environment that sets [OPENAI_SYSTEM_PROMPT] to the empty
    text gets the empty prompt, not the default one: when the
    configuration is returned its system prompt is the empty string, and
    the warning about the missing prompt has been printed. *)
Theorem empty_prompt_variable_is_kept (env : gmap string string)
    (models : list pyval) (c : ModeConfiguration) (out : list notice) :
  env !! "OPENAI_SYSTEM_PROMPT" = Some "" ->
  load_model_configuration py_int py_float default_system_prompt env models
  = (inr c, out) ->
  system_prompt c = PStr "" /\ (PromptNotSet ∈ out).
Proof.
  intros Henv H. unfold load_model_configuration in H.
  apply wbind_inr in H as (model_name & o1 & o1' & _ & H & ->).
  apply wbind_inr in H as ([] & o2 & o2' & _ & H & ->).
  apply wbind_inr in H as (tokens_text & o3 & o3' & _ & H & ->).
  apply wbind_inr in H as ([] & o4 & o4' & _ & H & ->).
  apply wbind_inr in H as (temp_text & o5 & o5' & _ & H & ->).
  apply wbind_inr in H as ([] & o6 & o6' & _ & H & ->).
  apply wbind_inr in H as (prompt & o7 & o7' & Hp & H & ->).
  apply wbind_inr in H as (prompt' & o8 & o8' & Hprompt & H & ->).
  apply wbind_inr in H as (tokens & o9 & o9' & _ & H & ->).
  apply wbind_inr in H as (temp & o10 & o10' & _ & H & ->).
  rewrite get_environment_variable_returns, Henv in Hp.
  injection Hp as <- <-. cbn in Hprompt. injection Hprompt as <- <-.
  injection H as <- _. split; [ reflexivity | ].
  rewrite !elem_of_app. right. right. right. right. right. right. right.
  left. apply elem_of_cons. by left.
Qed.

End StartupProperties.

Lemma load_model_configuration_valid_witness :
  valid_config default_models
    {| model := PStr "gpt-4"; max_tokens := PInt 500;
       temperature := PFloat float_0_7; system_prompt := PStr "" |} = true.
Proof.
  apply (load_model_configuration_valid sample_int sample_float
           sample_default_prompt sample_env default_models
           {| model := PStr "gpt-4"; max_tokens := PInt 500;
              temperature := PFloat float_0_7; system_prompt := PStr "" |}
           [PromptNotSet] "2025-01-02T03:04:05").
  vm_compute. reflexivity.
Defined.

Lemma load_model_configuration_failures_witness :
  load_model_configuration sample_int sample_float sample_default_prompt
    sample_env_unknown_model (PStr <$> default_models)
  = (inl (SystemExit 1),
     [ModelNotAvailable (Some "gpt-5"); ModelsAre default_models])
  /\ (SystemExit 1 = SystemExit 1 \/ SystemExit 1 = ValueError
      \/ (SystemExit 1 = TypeError
          /\ forall names, PStr <$> default_models <> PStr <$> names)).
Proof.
  split; [ vm_compute; reflexivity | ].
  apply (load_model_configuration_failures sample_int sample_float
           sample_default_prompt sample_env_unknown_model
           (PStr <$> default_models) (SystemExit 1)
           [ModelNotAvailable (Some "gpt-5"); ModelsAre default_models]).
  vm_compute. reflexivity.
Defined.

Lemma empty_prompt_variable_is_kept_witness :
  system_prompt
    {| model := PStr "gpt-4"; max_tokens := PInt 500;
       temperature := PFloat float_0_7; system_prompt := PStr "" |}
  = PStr "" /\ (PromptNotSet ∈ [PromptNotSet]).
Proof.
  apply (empty_prompt_variable_is_kept sample_int sample_float
           sample_default_prompt sample_env (PStr <$> default_models));
    vm_compute; reflexivity.
Defined.
